(** * Cartoon Magic: the capture, adjustment and dispatch core

    A shallow embedding of the parts of the application that carry state
    or a contract:

    - [Endpoint]: the [cartoonify-image] edge function (style table,
      validation, upstream call, error relay);
    - [Canvas] and [ImageEditor]: the adjustment stage;
    - [ImageUploader]: camera stream and capture gallery;
    - [Index]: the page that owns the session state and submits the
      stylization request.

    Definitions come first, module by module; the statements proved about
    them follow. *)

From stdpp Require Import base strings list gmap pretty.
From Stdlib Require Import ZArith Lia.

Set Warnings "-register-all".
Local Open Scope string_scope.

(** ** JavaScript data *)

Module JS.

(** Data as [JSON.parse] builds it.  Numbers are kept as integers: the
    code below only tests a number for zero or turns it into a property
    key. *)
Inductive json : Type :=
| JNull
| JBool (b : bool)
| JNum (n : Z)
| JStr (s : string)
| JArr (items : list json)
| JObj (fields : list (string * json)).

(** What an expression can evaluate to: [undefined], a datum, or one of
    the built-in function objects a plain object inherits. *)
Inductive value : Type :=
| Undefined
| Data (j : json)
| Builtin (name : string).

(** [ToBoolean]. *)
Definition truthy_json (j : json) : bool :=
  match j with
  | JNull => false
  | JBool b => b
  | JNum n => negb (n =? 0)%Z
  | JStr s => negb (String.eqb s "")
  | JArr _ | JObj _ => true
  end.

Definition truthy (v : value) : bool :=
  match v with
  | Undefined => false
  | Data j => truthy_json j
  | Builtin _ => true
  end.

(** [a || b]. *)
Definition or_else (a b : value) : value := if truthy a then a else b.

(** Own property of a parsed object; when a name is repeated in the text
    the last occurrence is the one kept. *)
Fixpoint own_property (k : string) (fields : list (string * json)) : option json :=
  match fields with
  | [] => None
  | (k', v) :: rest =>
      match own_property k rest with
      | Some w => Some w
      | None => if String.eqb k' k then Some v else None
      end
  end.

(** The property names the handlers read from parsed data ([first] is the
    index [0]).  No built-in prototype defines any of them, so such a read
    is answered by the datum's own properties alone. *)
Inductive field : Type :=
| f_image | f_style | f_choices | f_message | f_images | f_image_url | f_url
| f_cartoon_image | first.

Definition field_name (f : field) : string :=
  match f with
  | f_image => "image" | f_style => "style" | f_choices => "choices"
  | f_message => "message" | f_images => "images"
  | f_image_url => "image_url" | f_url => "url"
  | f_cartoon_image => "cartoon_image" | first => "0"
  end.

Definition of_option (o : option json) : value :=
  match o with Some j => Data j | None => Undefined end.

(** [j.f] for a datum other than [null]: an object answers with its own
    property, an array and a string only to the index. *)
Definition member (f : field) (j : json) : value :=
  match j with
  | JObj fields => of_option (own_property (field_name f) fields)
  | JArr items => match f with first => of_option (items !! 0%nat) | _ => Undefined end
  | JStr s =>
      match f, s with
      | first, String c _ => Data (JStr (String c ""))
      | _, _ => Undefined
      end
  | JNum _ | JBool _ | JNull => Undefined
  end.

(** [v?.f]: [undefined] when [v] is [null] or [undefined].  A function
    object has none of the [field] names either. *)
Definition opt_member (f : field) (v : value) : value :=
  match v with
  | Undefined | Data JNull | Builtin _ => Undefined
  | Data j => member f j
  end.

(** [ToString] of a datum, as used when a value serves as property key
    ([ToPropertyKey]); [None] stands for the [TypeError] of a failed
    conversion.  A plain object is printed by the [toString] it inherits,
    unless it has an own property of that name: parsed data holds no
    function, so the own property is not callable, the inherited [valueOf]
    returns the object itself, and the conversion fails.  An array joins
    the strings of its elements with commas, [null] elements counting as
    nothing, and fails where an element does.  A number is printed in
    decimal digits, which is its key as long as it is an integer of
    magnitude below [10^21]. *)
Fixpoint to_string (j : json) : option string :=
  match j with
  | JNull => Some "null"
  | JBool true => Some "true"
  | JBool false => Some "false"
  | JNum n => Some (pretty n)
  | JStr s => Some s
  | JArr items =>
      parts ← mapM (fun x => match x with JNull => Some "" | _ => to_string x end) items;
      Some (String.concat "," parts)
  | JObj fields =>
      match own_property "toString" fields with
      | Some _ => None
      | None => Some "[object Object]"
      end
  end.

(** The data whose numbers, where [to_string] prints them, are printed as
    JavaScript does: integers of magnitude below [10^21]. *)
Fixpoint prints_in_digits (j : json) : bool :=
  match j with
  | JNum n => (Z.abs n <? 10 ^ 21)%Z
  | JArr items => forallb prints_in_digits items
  | JNull | JBool _ | JStr _ | JObj _ => true
  end.

(** The names every plain object inherits from [Object.prototype] in the
    Deno runtime (which removes the [__proto__] accessor). *)
Definition object_prototype_names : list string :=
  [ "constructor"; "hasOwnProperty"; "isPrototypeOf"; "propertyIsEnumerable";
    "toLocaleString"; "toString"; "valueOf";
    "__defineGetter__"; "__defineSetter__";
    "__lookupGetter__"; "__lookupSetter__" ].

(** [o[k]] for an object literal whose own properties are strings: the
    own property if there is one, else what the prototype chain gives. *)
Definition get_property (own : gmap string string) (k : string) : value :=
  match own !! k with
  | Some s => Data (JStr s)
  | None =>
      if bool_decide (k ∈ object_prototype_names) then Builtin k else Undefined
  end.

(** Thrown values: an [Error] (of any subclass) with its message, or
    something that is not an [Error]. *)
Inductive exn : Type :=
| Error (message : string)
| Thrown.

(** V8's wording of the [TypeError]s raised by a read on [null]. *)
Definition read_of_null (f : field) : exn :=
  Error ("Cannot read properties of null (reading '" +:+ field_name f +:+ "')").

Definition destructure_of_null (f : field) : exn :=
  Error ("Cannot destructure property '" +:+ field_name f
         +:+ "' of '(intermediate value)' as it is null.").

(** V8's wording of the [TypeError] of a failed conversion to a property
    key. *)
Definition cannot_convert : exn :=
  Error "Cannot convert object to primitive value".

End JS.

(** ** The [cartoonify-image] edge function *)

Module Endpoint.
Import JS.

(** The handler's only effect is the call to the hosted model; a run of
    the handler is a tree that returns, throws, or fetches and goes on
    with the outcome. *)
Record upstream_request : Type := {
  authorization : string;
  model : string;
  prompt : value;
  image_url : value;
  modalities : list string
}.

(** A response of the hosted model, fully received: its status and its
    body, either parsed or the message of the [SyntaxError] that
    [response.json()] rejects with. *)
Record upstream_response : Type := {
  status : N;
  body : string + json
}.

Inductive fetch_outcome : Type :=
| Rejected (e : exn)
| Resolved (r : upstream_response).

Inductive prog (A : Type) : Type :=
| Ret (a : A)
| Throw (e : exn)
| Fetch (rq : upstream_request) (k : fetch_outcome -> prog A).
Arguments Ret {A} a.
Arguments Throw {A} e.
Arguments Fetch {A} rq k.

Fixpoint bind {A B : Type} (p : prog A) (f : A -> prog B) : prog B :=
  match p with
  | Ret a => f a
  | Throw e => Throw e
  | Fetch rq k => Fetch rq (fun o => bind (k o) f)
  end.

#[export] Instance prog_ret : MRet prog := @Ret.
#[export] Instance prog_bind : MBind prog := fun A B f p => bind p f.

(** [try { p } catch (e) { h e }]. *)
Fixpoint try_catch {A : Type} (p : prog A) (h : exn -> prog A) : prog A :=
  match p with
  | Ret a => Ret a
  | Throw e => h e
  | Fetch rq k => Fetch rq (fun o => try_catch (k o) h)
  end.

(** [await fetch(...)]. *)
Definition fetch (rq : upstream_request) : prog upstream_response :=
  Fetch rq (fun o => match o with Rejected e => Throw e | Resolved r => Ret r end).

(** Running a handler against an upstream: the calls it made, in order,
    and how it ended. *)
Fixpoint run {A : Type} (upstream : upstream_request -> fetch_outcome)
    (p : prog A) : list upstream_request * (exn + A) :=
  match p with
  | Ret a => ([], inr a)
  | Throw e => ([], inl e)
  | Fetch rq k =>
      let '(calls, r) := run upstream (k (upstream rq)) in (rq :: calls, r)
  end.

(** The incoming request: its method and its body as [req.json()] sees
    it, parsed or failing with a [SyntaxError] message. *)
Record request : Type := {
  method : string;
  payload : string + json
}.

(** What the handler answers: status, JSON body if any. *)
Record Response : Type := {
  rstatus : N;
  rbody : option json
}.

Definition json_response (st : N) (b : json) : Response :=
  {| rstatus := st; rbody := Some b |}.

(** [JSON.stringify({ error: msg })]. *)
Definition error_body (msg : string) : json := JObj [("error", JStr msg)].

Definition parse (b : string + json) : prog json :=
  match b with
  | inl msg => Throw (Error msg)
  | inr j => Ret j
  end.

Definition stylePrompts_entries : list (string * string) :=
  [ ("vibrant",
     "Transform this image into a vibrant cartoon style. Apply bold outlines, saturated colors, simplified shapes, and a playful artistic interpretation. Make it look like a hand-drawn animation or comic book illustration with enhanced colors and clear, defined edges.");
    ("anime",
     "Transform this image into a beautiful anime/manga style. Use large expressive eyes, clean linework, soft shading, vibrant hair colors, and the characteristic Japanese animation aesthetic. Add cel-shaded lighting and smooth gradients typical of anime art.");
    ("comic",
     "Transform this image into a dynamic comic book style. Use bold black outlines, Ben-Day dots, halftone patterns, dramatic lighting with high contrast, and vibrant primary colors. Make it look like it's from a vintage superhero comic with action-packed energy.");
    ("watercolor",
     "Transform this image into a soft watercolor painting style. Use gentle brushstrokes, pastel colors that blend smoothly, transparent washes, organic edges, and the fluid, dreamy quality of watercolor art. Create a delicate, artistic interpretation.");
    ("sketch",
     "Transform this image into a hand-drawn pencil sketch style. Use cross-hatching, varied line weights, shading with graphite-like strokes, and the organic, imperfect quality of pencil artwork. Make it look like a detailed artist's sketch with visible drawing marks.");
    ("pixar",
     "Transform this image into a Pixar-style 3D animated movie look. Use soft rounded shapes, glossy surfaces, cinematic lighting with rim lights, warm color palettes, expressive character features, and the polished CGI quality of modern animated films like Toy Story or Finding Nemo.");
    ("retro",
     "Transform this image into a retro 1950s cartoon style. Use limited color palettes, simple bold shapes, vintage comic aesthetics, grainy texture, flat colors with minimal shading, and the nostalgic look of classic Hanna-Barbera or early Disney cartoons.");
    ("noir",
     "Transform this image into a dramatic film noir style. Use high contrast black and white, deep shadows, dramatic lighting, sharp angles, moody atmosphere, and the classic detective movie aesthetic. Create strong chiaroscuro effects with bold darks and highlights.");
    ("popart",
     "Transform this image into Andy Warhol-style pop art. Use bright neon colors, high contrast, repeated patterns, Ben-Day dots, bold flat colors, screen-print effects, and the iconic 1960s pop art aesthetic. Make it bold, graphic, and eye-catching.");
    ("oil",
     "Transform this image into a classical oil painting style. Use rich textures, visible brushstrokes, deep colors with subtle color mixing, impasto techniques, Renaissance or Impressionist aesthetics, and the timeless quality of traditional fine art oil paintings.");
    ("fantasy",
     "Transform this image into an epic fantasy art style. Use magical lighting effects, mystical color palettes with purples and blues, ethereal glows, dramatic atmosphere, otherworldly beauty, and the enchanting quality of fantasy book covers or concept art.");
    ("minimalist",
     "Transform this image into a minimalist art style. Use simple clean lines, limited color palette (2-4 colors max), geometric shapes, negative space, flat design, modern aesthetic, and the elegant simplicity of Scandinavian or Japanese minimalism.") ].

(** The style table of the handler, an object literal. *)
Definition stylePrompts : gmap string string := list_to_map stylePrompts_entries.

(** The instruction of the default tag. *)
Definition vibrant_text : string :=
  "Transform this image into a vibrant cartoon style. Apply bold outlines, saturated colors, simplified shapes, and a playful artistic interpretation. Make it look like a hand-drawn animation or comic book illustration with enhanced colors and clear, defined edges.".

(** [const { image, style = "vibrant" } = await req.json()]: the default
    replaces a missing [style] only, not a [null] one. *)
Definition style_of (b : json) : json :=
  match member f_style b with
  | Data j => j
  | _ => JStr "vibrant"
  end.

Definition destructure (b : json) : prog (value * json) :=
  match b with
  | JNull => Throw (destructure_of_null f_image)
  | _ => Ret (member f_image b, style_of b)
  end.

(** [stylePrompts[style] || stylePrompts.vibrant]: the key is computed
    first, and the read throws where that fails. *)
Definition promptText (style : json) : prog value :=
  match to_string style with
  | Some key =>
      Ret (or_else (get_property stylePrompts key)
                   (get_property stylePrompts "vibrant"))
  | None => Throw cannot_convert
  end.

(** [Deno.env.get("LOVABLE_API_KEY")] passed through [!]: an empty value
    counts as missing. *)
Definition configured (key : option string) : option string :=
  match key with
  | Some k => if String.eqb k "" then None else Some k
  | None => None
  end.

(** [response.ok]. *)
Definition ok (r : upstream_response) : bool :=
  (200 <=? status r)%N && (status r <=? 299)%N.

(** [JSON.stringify({ name: v })]: a property whose value is [undefined] or
    a function is left out. *)
Definition object_with (name : string) (v : value) : json :=
  match v with
  | Data j => JObj [(name, j)]
  | Undefined | Builtin _ => JObj []
  end.

(** [data.choices?.[0]?.message?.images?.[0]?.image_url?.url] for a
    response body other than [null]. *)
Definition generated_image (data : json) : value :=
  opt_member f_url
    (opt_member f_image_url
      (opt_member first
        (opt_member f_images
          (opt_member f_message
            (opt_member first (member f_choices data)))))).

(** The same expression as the handler evaluates it: the first read is a
    plain one and throws on [null]. *)
Definition first_image (data : json) : prog value :=
  match data with
  | JNull => Throw (read_of_null f_choices)
  | _ => Ret (generated_image data)
  end.

(** The handler passed to [Deno.serve], in three parts: what it does with
    the response of the hosted model ([relay]), its [catch] block
    ([on_error]), and the whole ([serve]).  Console output is left out. *)
Definition relay (response : upstream_response) : prog Response :=
  if negb (ok response) then
    if (status response =? 429)%N then
      Ret (json_response 429
             (error_body "Rate limit exceeded. Please try again later."))
    else if (status response =? 402)%N then
      Ret (json_response 402
             (error_body "Payment required. Please add credits to your workspace."))
    else
      Throw (Error ("Gemini AI error: " +:+ pretty (status response)))
  else
    data ← parse (body response);
    cartoonImage ← first_image data;
    if negb (truthy cartoonImage) then
      Throw (Error "No cartoon image returned from AI")
    else
      Ret (json_response 200 (object_with "cartoon_image" cartoonImage)).

Definition on_error (error : exn) : prog Response :=
  Ret (json_response 500
         (error_body match error with
                     | Error message => message
                     | Thrown => "Failed to cartoonify image"
                     end)).

Definition upstream_call (key : string) (promptText image : value) : upstream_request :=
  {| authorization := "Bearer " +:+ key;
     model := "google/gemini-2.5-flash-image-preview";
     prompt := promptText;
     image_url := image;
     modalities := ["image"; "text"] |}.

Definition serve (LOVABLE_API_KEY : option string) (req : request) : prog Response :=
  if String.eqb (method req) "OPTIONS" then
    Ret {| rstatus := 200; rbody := None |}
  else
    try_catch
      (parsed ← parse (payload req);
       '(image, style) ← destructure parsed;
       if negb (truthy image) then
         Ret (json_response 400 (error_body "No image provided"))
       else
         promptText ← promptText style;
         match configured LOVABLE_API_KEY with
         | None =>
             Ret (json_response 500 (error_body "AI service not configured"))
         | Some key =>
             response ← fetch (upstream_call key promptText image);
             relay response
         end)
      on_error.

(** The answer and the upstream calls of one request. *)
Definition respond (key : option string) (upstream : upstream_request -> fetch_outcome)
    (req : request) : list upstream_request * (exn + Response) :=
  run upstream (serve key req).

End Endpoint.


(** ** Rasters, CSS filter functions and the 2D canvas

    The editor hands the pixel work to the browser: it sets [ctx.filter]
    and calls [drawImage].  The model records what was drawn and through
    which filter list; the colour arithmetic of the browser's filters is
    not part of it. *)

Module Canvas.

(** The functions of a CSS [<filter-value-list>], with their argument in
    percent. *)
Inductive filter_function : Type :=
| brightness_pct (percent : N)
| contrast_pct (percent : N)
| saturate_pct (percent : N).

(** A pixel is either one decoded from a file (8 bits per channel, colour
    not premultiplied by alpha), or the pixel a cleared canvas holds once a
    pixel has been drawn on it through a filter list.  The second form
    names the value the browser computes without computing it: two pixels
    written alike are the same pixel, two written differently may or may
    not be. *)
Inductive Pixel : Type :=
| Rgba (red green blue alpha : Z)
| Drawn (fs : list filter_function) (p : Pixel).

Record Raster : Type := { width : nat; height : nat; pixels : list Pixel }.

Definition channel_ok (c : Z) : Prop := (0 <= c <= 255)%Z.

Definition pixel_ok (p : Pixel) : Prop :=
  match p with
  | Rgba r g b a => channel_ok r /\ channel_ok g /\ channel_ok b /\ channel_ok a
  | Drawn _ _ => False
  end.

Definition opaque (p : Pixel) : Prop :=
  match p with
  | Rgba _ _ _ a => a = 255%Z
  | Drawn _ _ => False
  end.

(** A decoded image: at least one pixel each way, row after row, 8 bits per
    channel. *)
Definition raster_ok (r : Raster) : Prop :=
  (0 < width r)%nat /\ (0 < height r)%nat
  /\ length (pixels r) = (width r * height r)%nat
  /\ Forall pixel_ok (pixels r).

(** A file: name, MIME type, and the image its bytes decode to.  PNG being
    lossless, a PNG file is identified with the raster it was encoded
    from. *)
Record File : Type := { fname : string; ftype : string; fdata : Raster }.

Definition transparent : Pixel := Rgba 0 0 0 0.

(** *** The value of a drawn pixel, where it can be told

    Two facts about the platform settle the value of a drawn pixel when
    every function of the filter list stands at 100%.  Such a function
    leaves the colour as it is (Filter Effects: a value of 100% leaves the
    input unchanged).  And a 2D canvas keeps its bitmap in 8 bits per
    channel with the colour premultiplied by alpha, rounded to nearest; an
    encoder divides by alpha again on the way out.  For any other filter
    list the value is left open. *)
Definition neutral (f : filter_function) : bool :=
  match f with
  | brightness_pct p | contrast_pct p | saturate_pct p => (p =? 100)%N
  end.

Definition premultiply (c a : Z) : Z := ((c * a + 127) / 255)%Z.

Definition unpremultiply (c a : Z) : Z :=
  if (a =? 0)%Z then 0%Z else Z.min 255 ((c * 255 + a / 2) / a)%Z.

(** A decoded pixel after a stay in the bitmap. *)
Definition stored (p : Pixel) : Pixel :=
  match p with
  | Rgba r g b a =>
      Rgba (unpremultiply (premultiply r a) a) (unpremultiply (premultiply g a) a)
           (unpremultiply (premultiply b a) a) a
  | Drawn _ _ => p
  end.

(** The decoded pixel an encoder reads, [None] where it is left open. *)
Fixpoint read_back (p : Pixel) : option Pixel :=
  match p with
  | Rgba _ _ _ _ => Some p
  | Drawn fs q => if forallb neutral fs then stored <$> read_back q else None
  end.

(** The calls a 2D context has served since the canvas was last sized. *)
Inductive call : Type :=
| SetFilter (fs : list filter_function)
| DrawImage (img : Raster) (dx dy : nat).

(** A canvas element with its 2D context: the bitmap, the current
    [ctx.filter] ([[]] is ['none']) and the calls served.  [foreign] tells
    that the element is bound to another kind of context, in which case
    [getContext('2d')] gives [null]. *)
Record canvas : Type := {
  cwidth : nat;
  cheight : nat;
  bitmap : list Pixel;
  filter : list filter_function;
  calls : list call;
  foreign : bool
}.

(** A canvas as the browser creates it. *)
Definition new_canvas : canvas :=
  {| cwidth := 300; cheight := 150;
     bitmap := replicate (300 * 150) transparent;
     filter := []; calls := []; foreign := false |}.

(** [canvas.width = w; canvas.height = h]: sizing a canvas clears the
    bitmap to transparent black and resets the context state. *)
Definition resize (w h : nat) (c : canvas) : canvas :=
  {| cwidth := w; cheight := h;
     bitmap := replicate (w * h) transparent;
     filter := []; calls := []; foreign := foreign c |}.

(** [ctx.filter = fs]. *)
Definition set_filter (fs : list filter_function) (c : canvas) : canvas :=
  {| cwidth := cwidth c; cheight := cheight c; bitmap := bitmap c;
     filter := fs; calls := calls c ++ [SetFilter fs]; foreign := foreign c |}.

(** [ctx.drawImage(img, 0, 0)] on a canvas that is still clear: inside the
    image's rectangle the canvas takes the image pixel drawn through the
    current filter, outside it stays as it is. *)
Definition draw_image (img : Raster) (c : canvas) : canvas :=
  let filtered := map (Drawn (filter c)) (pixels img) in
  let at_index (i : nat) (old : Pixel) : Pixel :=
    let x := (i mod cwidth c)%nat in
    let y := (i / cwidth c)%nat in
    if (x <? width img)%nat && (y <? height img)%nat
    then nth (y * width img + x) filtered transparent
    else old in
  {| cwidth := cwidth c; cheight := cheight c;
     bitmap := imap at_index (bitmap c);
     filter := filter c; calls := calls c ++ [DrawImage img 0 0];
     foreign := foreign c |}.

(** [canvas.toBlob(callback, type)]: no blob for a canvas without pixels,
    otherwise the bitmap encoded in the requested type. *)
Definition toBlob (type : string) (c : canvas) : option (string * Raster) :=
  if (cwidth c =? 0)%nat || (cheight c =? 0)%nat then None
  else Some (type, {| width := cwidth c; height := cheight c; pixels := bitmap c |}).

End Canvas.

(** ** The image editor component *)

Module ImageEditor.
Import Canvas.

Record Adjustments : Type := {
  brightness : N;
  contrast : N;
  saturation : N
}.

Definition default_adjustments : Adjustments :=
  {| brightness := 100; contrast := 100; saturation := 100 |}.

(** Component state.  [imageFile] is the prop; [canvasRef] is the ref to
    the canvas element; [decoding] lists the files whose [Image] the first
    effect has started loading and which have not loaded yet, oldest
    first, each with the adjustments its [onload] closed over.  (The
    effect's cleanup revokes the object URL and leaves the [onload] in
    place.) *)
Record state : Type := {
  imageFile : File;
  adjustments : Adjustments;
  originalImage : option Raster;
  canvasRef : option canvas;
  decoding : list (File * Adjustments)
}.

(** First render for a file: state at its initial values, canvas in place,
    and the effect on [imageFile] has started loading the image. *)
Definition mount (f : File) : state :=
  {| imageFile := f; adjustments := default_adjustments;
     originalImage := None; canvasRef := Some new_canvas;
     decoding := [(f, default_adjustments)] |}.

(** The ['...'] template of [ctx.filter]. *)
Definition filter_of (adj : Adjustments) : list filter_function :=
  [ brightness_pct (brightness adj); contrast_pct (contrast adj);
    saturate_pct (saturation adj) ].

Definition with_canvas (c : canvas) (st : state) : state :=
  {| imageFile := imageFile st; adjustments := adjustments st;
     originalImage := originalImage st; canvasRef := Some c;
     decoding := decoding st |}.

Definition applyFilters (img : Raster) (adj : Adjustments) (st : state) : state :=
  match canvasRef st with
  | None => st
  | Some c =>
      if foreign c then st
      else
        let c1 := resize (width img) (height img) c in
        let c2 := set_filter (filter_of adj) c1 in
        let c3 := draw_image img c2 in
        with_canvas (set_filter [] c3) st
  end.

(** The canvas one expects after [applyFilters]: sized to the image, holding
    its pixels drawn through the filter, having served one draw between
    two filter settings. *)
Definition rendered (img : Raster) (adj : Adjustments) : canvas :=
  {| cwidth := width img; cheight := height img;
     bitmap := map (Drawn (filter_of adj)) (pixels img);
     filter := [];
     calls := [SetFilter (filter_of adj); DrawImage img 0 0; SetFilter []];
     foreign := false |}.

(** [exportAdjustedImage]: the file passed to [onImageAdjusted], if the
    canvas gives a blob. *)
Definition exportAdjustedImage (st : state) : option File :=
  match canvasRef st with
  | None => None
  | Some c =>
      match toBlob "image/png" c with
      | Some (type, data) =>
          Some {| fname := fname (imageFile st); ftype := "image/png"; fdata := data |}
      | None => None
      end
  end.

(** The effect on [adjustments] and [originalImage]: the new state and the
    file reported to the parent. *)
Definition render_effect (st : state) : state * option File :=
  match originalImage st with
  | Some img =>
      let st' := applyFilters img (adjustments st) st in
      (st', exportAdjustedImage st')
  | None => (st, None)
  end.

Definition setAdjustments (f : Adjustments -> Adjustments) (st : state) : state :=
  {| imageFile := imageFile st; adjustments := f (adjustments st);
     originalImage := originalImage st; canvasRef := canvasRef st;
     decoding := decoding st |}.

(** A slider moved, or the reset button pressed; the effect follows. *)
Definition change (f : Adjustments -> Adjustments) (st : state) : state * option File :=
  render_effect (setAdjustments f st).

Definition set_brightness (v : N) (prev : Adjustments) : Adjustments :=
  {| brightness := v; contrast := contrast prev; saturation := saturation prev |}.

Definition set_contrast (v : N) (prev : Adjustments) : Adjustments :=
  {| brightness := brightness prev; contrast := v; saturation := saturation prev |}.

Definition set_saturation (v : N) (prev : Adjustments) : Adjustments :=
  {| brightness := brightness prev; contrast := contrast prev; saturation := v |}.

Definition resetAdjustments (st : state) : state * option File :=
  change (fun _ => default_adjustments) st.

(** The parent rendered the component with another file: the state is
    kept, and the effect on [imageFile] starts loading the new image, next
    to the loads still under way. *)
Definition receive (f : File) (st : state) : state :=
  {| imageFile := f; adjustments := adjustments st;
     originalImage := originalImage st; canvasRef := canvasRef st;
     decoding := decoding st ++ [(f, adjustments st)] |}.

(** [img.onload] of the oldest load under way: the image is stored, drawn
    with the adjustments of the render that started the load, and the
    effect on [originalImage] follows. *)
Definition image_loaded (st : state) : state * option File :=
  match decoding st with
  | [] => (st, None)
  | (f, adj) :: rest =>
      let img := fdata f in
      let st1 :=
        {| imageFile := imageFile st; adjustments := adjustments st;
           originalImage := Some img; canvasRef := canvasRef st;
           decoding := rest |} in
      render_effect (applyFilters img adj st1)
  end.



(** [hasAdjustments]: whether the reset button is on display. *)
Definition hasAdjustments (st : state) : bool :=
  negb (brightness (adjustments st) =? 100)%N
  || negb (contrast (adjustments st) =? 100)%N
  || negb (saturation (adjustments st) =? 100)%N.

End ImageEditor.

(** ** The uploader component: file drop, camera, capture gallery *)

Module ImageUploader.
Import Canvas.

Inductive FacingMode : Type := user | environment.

Inductive QualityPreset : Type := low | medium | high.

Definition QUALITY_PRESETS (q : QualityPreset) : nat * nat :=
  match q with
  | low => (640, 480)
  | medium => (1280, 720)
  | high => (1920, 1080)
  end.

Record CapturedImage : Type := {
  file : File;
  preview_of : string;
  id : string
}.

(** A stream handed out by [getUserMedia]: a serial number and the ideal
    constraints it was asked with. *)
Record MediaStream : Type := {
  serial : nat;
  facing : FacingMode;
  ideal : nat * nat
}.

(** Component state, followed by the part of the device it talks to.
    [srcObject] is that of the video element.  [live] lists the streams
    whose tracks run, [handed_out] counts the streams obtained so far. *)
Record state : Type := {
  preview : option string;
  isWebcamActive : bool;
  capturedImages : list CapturedImage;
  selectedImageId : option string;
  facingMode : FacingMode;
  quality : QualityPreset;
  streamRef : option MediaStream;
  srcObject : option MediaStream;
  toasts : list string;
  live : list MediaStream;
  handed_out : nat
}.

(** [localStorage] holds no camera setting. *)
Definition initial : state :=
  {| preview := None; isWebcamActive := false; capturedImages := [];
     selectedImageId := None; facingMode := user; quality := medium;
     streamRef := None; srcObject := None; toasts := [];
     live := []; handed_out := 0 |}.

(** The video element is rendered only while [isWebcamActive] holds, so
    [videoRef.current] is set exactly then. *)
Definition videoRef (st : state) : bool := isWebcamActive st.

Definition toast (msg : string) (st : state) : state :=
  {| preview := preview st; isWebcamActive := isWebcamActive st;
     capturedImages := capturedImages st; selectedImageId := selectedImageId st;
     facingMode := facingMode st; quality := quality st;
     streamRef := streamRef st; srcObject := srcObject st;
     toasts := toasts st ++ [msg];
     live := live st; handed_out := handed_out st |}.

Definition same_stream (a b : MediaStream) : bool := (serial a =? serial b)%nat.

(** [stopWebcam]: the tracks of the stream in [streamRef] are stopped and
    the ref cleared, the video sink is cleared, the flag is lowered. *)
Definition stopWebcam (st : state) : state :=
  {| preview := preview st; isWebcamActive := false;
     capturedImages := capturedImages st; selectedImageId := selectedImageId st;
     facingMode := facingMode st; quality := quality st;
     streamRef := None;
     srcObject := if videoRef st then None else srcObject st;
     toasts := toasts st;
     live := match streamRef st with
             | Some s => List.filter (fun t => negb (same_stream s t)) (live st)
             | None => live st
             end;
     handed_out := handed_out st |}.

(** How [getUserMedia] ends: with a stream, or rejecting with an error of
    the given name. *)
Inductive media_outcome : Type :=
| Granted
| Refused (name : string).

Definition refusal_message (name : string) : string :=
  let message := "Unable to access webcam." in
  let message := if String.eqb name "NotAllowedError"
                 then "Camera permission denied. Please enable permissions."
                 else message in
  let message := if String.eqb name "NotFoundError"
                 then "No camera device found." else message in
  let message := if String.eqb name "NotReadableError"
                 then "Camera is in use by another app." else message in
  message.

(** [startWebcam].  [supported] tells whether [navigator.mediaDevices.getUserMedia]
    exists, [played] whether [v.play()] resolves.  The component has
    rendered again by the time the stream arrives, so [videoRef.current] is
    read from the state as it is then. *)
Definition startWebcam (supported : bool) (o : media_outcome) (played : bool)
    (st : state) : state :=
  if negb supported then toast "Camera not supported in this browser." st
  else
    let st1 := if isWebcamActive st then stopWebcam st else st in
    match o with
    | Refused name => toast (refusal_message name) st1
    | Granted =>
        let stream := {| serial := handed_out st1; facing := facingMode st1;
                         ideal := QUALITY_PRESETS (quality st1) |} in
        let shown := videoRef st1 in
        let st2 :=
          {| preview := preview st1;
             isWebcamActive := if shown then true else isWebcamActive st1;
             capturedImages := capturedImages st1;
             selectedImageId := selectedImageId st1;
             facingMode := facingMode st1; quality := quality st1;
             streamRef := Some stream;
             srcObject := if shown then Some stream else srcObject st1;
             toasts := toasts st1;
             live := live st1 ++ [stream];
             handed_out := S (handed_out st1) |} in
        if shown && negb played then toast "Tap the video to start preview" st2
        else st2
    end.

(** What one press of the capture button meets: the frame encoded by
    [toBlob] (none when the canvas gives no context or no blob), the two
    readings of [Date.now()], and the data URL the reader produces. *)
Record shot : Type := {
  frame : option Raster;
  named_at : N;
  loaded_at : N;
  data_url : string
}.

(** [capturePhoto], run to the end of its callbacks. *)
Definition capturePhoto (sh : shot) (st : state) : state :=
  if videoRef st then
    match frame sh with
    | Some r =>
        let newImage :=
          {| file := {| fname := "webcam-" +:+ pretty (named_at sh) +:+ ".png";
                        ftype := "image/png"; fdata := r |};
             preview_of := data_url sh;
             id := pretty (loaded_at sh) |} in
        toast "Photo captured!"
          {| preview := preview st; isWebcamActive := isWebcamActive st;
             capturedImages := capturedImages st ++ [newImage];
             selectedImageId := selectedImageId st;
             facingMode := facingMode st; quality := quality st;
             streamRef := streamRef st; srcObject := srcObject st;
             toasts := toasts st;
             live := live st; handed_out := handed_out st |}
    | None => st
    end
  else st.

Definition deleteImage (i : string) (st : state) : state :=
  let selected := bool_decide (selectedImageId st = Some i) in
  {| preview := if selected then None else preview st;
     isWebcamActive := isWebcamActive st;
     capturedImages :=
       List.filter (fun img => negb (String.eqb (id img) i)) (capturedImages st);
     selectedImageId := if selected then None else selectedImageId st;
     facingMode := facingMode st; quality := quality st;
     streamRef := streamRef st; srcObject := srcObject st;
     toasts := toasts st;
     live := live st; handed_out := handed_out st |}.

(** [selectImage]: the new state and the file passed to [onImageSelect]. *)
Definition selectImage (image : CapturedImage) (st : state) : state * File :=
  ({| preview := Some (preview_of image);
      isWebcamActive := isWebcamActive st;
      capturedImages := capturedImages st;
      selectedImageId := Some (id image);
      facingMode := facingMode st; quality := quality st;
      streamRef := streamRef st; srcObject := srcObject st;
      toasts := toasts st;
      live := live st; handed_out := handed_out st |},
   file image).

(** What [useDropzone] passes to [onDrop] for a drop, under the options
    [accept: {'image/*': ['.png', '.jpg', '.jpeg', '.webp']}] and
    [maxFiles: 1].  The hook takes a file when its MIME type is an image
    type or its name ends with one of the listed extensions, letter case
    aside (the letters concerned are ASCII); and when more files of a drop
    pass than [maxFiles] allows, it rejects them all. *)
Definition lower_ascii (c : Ascii.ascii) : Ascii.ascii :=
  let n := Ascii.nat_of_ascii c in
  if (65 <=? n)%nat && (n <=? 90)%nat then Ascii.ascii_of_nat (n + 32) else c.

Fixpoint lower (s : string) : string :=
  match s with
  | EmptyString => EmptyString
  | String c rest => String (lower_ascii c) (lower rest)
  end.

(** The part of a MIME type before the first slash. *)
Fixpoint base_mime (t : string) : string :=
  match t with
  | EmptyString => EmptyString
  | String c rest => if (Ascii.nat_of_ascii c =? 47)%nat then EmptyString else String c (base_mime rest)
  end.

Definition ends_with (suffix s : string) : bool :=
  let n := String.length s in
  let m := String.length suffix in
  (m <=? n)%nat && String.eqb (String.substring (n - m) m s) suffix.

Definition acceptable (f : File) : bool :=
  String.eqb (ftype f) "application/x-moz-file"
  || String.eqb (base_mime (lower (ftype f))) "image"
  || existsb (fun ext => ends_with ext (lower (fname f)))
       [".png"; ".jpg"; ".jpeg"; ".webp"].

Definition useDropzone_accepts (dropped : list (File * string)) : list (File * string) :=
  let passing := List.filter (fun d => acceptable (fst d)) dropped in
  if (1 <? length passing)%nat then [] else passing.

(** [onDrop], run to the end of the reader's callback: the first accepted
    file goes to [onImageSelect] and its data URL becomes the preview. *)
Definition onDrop (acceptedFiles : list (File * string)) (st : state)
    : state * option File :=
  match acceptedFiles with
  | [] => (st, None)
  | (f, url) :: _ =>
      ({| preview := Some url;
          isWebcamActive := isWebcamActive st;
          capturedImages := capturedImages st;
          selectedImageId := selectedImageId st;
          facingMode := facingMode st; quality := quality st;
          streamRef := streamRef st; srcObject := srcObject st;
          toasts := toasts st;
          live := live st; handed_out := handed_out st |},
       Some f)
  end.

(** [closeGallery]. *)
Definition closeGallery (st : state) : state :=
  stopWebcam
    {| preview := None; isWebcamActive := isWebcamActive st;
       capturedImages := []; selectedImageId := None;
       facingMode := facingMode st; quality := quality st;
       streamRef := streamRef st; srcObject := srcObject st;
       toasts := toasts st;
       live := live st; handed_out := handed_out st |}.

(** [startWebcam] as the render that saw the state [seen] created it: the
    three state variables it reads ([isWebcamActive], [facingMode],
    [quality]) are those of that render, whereas the refs, the device and
    the effect of the setters belong to the state [st] in which it runs.
    A call made right from the render's own controls has [seen = st]; the
    call that [toggleCamera] and [changeQuality] put on a timer runs
    later. *)
Definition startWebcam_of (seen : state) (supported : bool) (o : media_outcome)
    (played : bool) (st : state) : state :=
  if negb supported then toast "Camera not supported in this browser." st
  else
    let st1 := if isWebcamActive seen then stopWebcam st else st in
    match o with
    | Refused name => toast (refusal_message name) st1
    | Granted =>
        let stream := {| serial := handed_out st1; facing := facingMode seen;
                         ideal := QUALITY_PRESETS (quality seen) |} in
        let shown := videoRef st1 in
        let st2 :=
          {| preview := preview st1;
             isWebcamActive := if shown then true else isWebcamActive st1;
             capturedImages := capturedImages st1;
             selectedImageId := selectedImageId st1;
             facingMode := facingMode st1; quality := quality st1;
             streamRef := Some stream;
             srcObject := if shown then Some stream else srcObject st1;
             toasts := toasts st1;
             live := live st1 ++ [stream];
             handed_out := S (handed_out st1) |} in
        if shown && negb played then toast "Tap the video to start preview" st2
        else st2
    end.

Definition facing_name (m : FacingMode) : string :=
  match m with user => "user" | environment => "environment" end.

Definition quality_name (q : QualityPreset) : string :=
  match q with low => "low" | medium => "medium" | high => "high" end.

Definition setFacingMode (m : FacingMode) (st : state) : state :=
  {| preview := preview st; isWebcamActive := isWebcamActive st;
     capturedImages := capturedImages st; selectedImageId := selectedImageId st;
     facingMode := m; quality := quality st;
     streamRef := streamRef st; srcObject := srcObject st;
     toasts := toasts st;
     live := live st; handed_out := handed_out st |}.

Definition setQuality (q : QualityPreset) (st : state) : state :=
  {| preview := preview st; isWebcamActive := isWebcamActive st;
     capturedImages := capturedImages st; selectedImageId := selectedImageId st;
     facingMode := facingMode st; quality := q;
     streamRef := streamRef st; srcObject := srcObject st;
     toasts := toasts st;
     live := live st; handed_out := handed_out st |}.

(** [toggleCamera], up to its return: the new state, the item written to
    [localStorage], and whether a restart has been put on the 100 ms
    timer.  The restart, when the timer fires, is
    [startWebcam_of st ...] for the state [st] the toggle was called in. *)
Definition toggleCamera (st : state) : state * (string * string) * bool :=
  let newMode := match facingMode st with
                 | user => environment
                 | environment => user
                 end in
  let st1 := setFacingMode newMode st in
  (if isWebcamActive st then stopWebcam st1 else st1,
   ("camera-facing", facing_name newMode),
   isWebcamActive st).

(** [changeQuality], in the same way. *)
Definition changeQuality (newQuality : QualityPreset) (st : state)
    : state * (string * string) * bool :=
  let st1 := setQuality newQuality st in
  (if isWebcamActive st then stopWebcam st1 else st1,
   ("camera-quality", quality_name newQuality),
   isWebcamActive st).

End ImageUploader.

(** ** The page *)

Module Index.
Import Canvas.

Inductive CartoonStyle : Type :=
| vibrant | anime | comic | watercolor | sketch | pixar
| retro | noir | popart | oil | fantasy | minimalist.

Definition tag (s : CartoonStyle) : string :=
  match s with
  | vibrant => "vibrant" | anime => "anime" | comic => "comic"
  | watercolor => "watercolor" | sketch => "sketch" | pixar => "pixar"
  | retro => "retro" | noir => "noir" | popart => "popart" | oil => "oil"
  | fantasy => "fantasy" | minimalist => "minimalist"
  end.

(** The body of one [supabase.functions.invoke] call: the file (sent as
    its data URL) and the style. *)
Record invocation : Type := {
  image : File;
  style : CartoonStyle
}.

(** The toast with id ["cartoonify"]. *)
Inductive toast_state : Type :=
| Loading
| Success
| Failed (message : string).

(** The five state variables of the page, then what [handleCartoonify] has
    left running: readers that have not fired [onloadend] yet (each with
    the style its callback closed over), calls that have not been answered
    yet, and the errors thrown inside the callback, which nothing
    catches. *)
Record state : Type := {
  selectedFile : option File;
  adjustedFile : option File;
  cartoonImage : option string;
  isProcessing : bool;
  selectedStyle : CartoonStyle;
  cartoonify_toast : option toast_state;
  reading : list invocation;
  in_flight : list invocation;
  uncaught : list string
}.

Definition initial : state :=
  {| selectedFile := None; adjustedFile := None; cartoonImage := None;
     isProcessing := false; selectedStyle := vibrant;
     cartoonify_toast := None; reading := []; in_flight := []; uncaught := [] |}.

Definition handleImageSelect (f : File) (st : state) : state :=
  {| selectedFile := Some f; adjustedFile := Some f; cartoonImage := None;
     isProcessing := isProcessing st; selectedStyle := selectedStyle st;
     cartoonify_toast := cartoonify_toast st; reading := reading st;
     in_flight := in_flight st; uncaught := uncaught st |}.

Definition handleImageAdjusted (f : File) (st : state) : state :=
  {| selectedFile := selectedFile st; adjustedFile := Some f;
     cartoonImage := cartoonImage st;
     isProcessing := isProcessing st; selectedStyle := selectedStyle st;
     cartoonify_toast := cartoonify_toast st; reading := reading st;
     in_flight := in_flight st; uncaught := uncaught st |}.

Definition handleStyleChange (s : CartoonStyle) (st : state) : state :=
  {| selectedFile := selectedFile st; adjustedFile := adjustedFile st;
     cartoonImage := None;
     isProcessing := isProcessing st; selectedStyle := s;
     cartoonify_toast := cartoonify_toast st; reading := reading st;
     in_flight := in_flight st; uncaught := uncaught st |}.

Definition setIsProcessing (b : bool) (st : state) : state :=
  {| selectedFile := selectedFile st; adjustedFile := adjustedFile st;
     cartoonImage := cartoonImage st;
     isProcessing := b; selectedStyle := selectedStyle st;
     cartoonify_toast := cartoonify_toast st; reading := reading st;
     in_flight := in_flight st; uncaught := uncaught st |}.

Definition set_toast (t : toast_state) (st : state) : state :=
  {| selectedFile := selectedFile st; adjustedFile := adjustedFile st;
     cartoonImage := cartoonImage st;
     isProcessing := isProcessing st; selectedStyle := selectedStyle st;
     cartoonify_toast := Some t; reading := reading st;
     in_flight := in_flight st; uncaught := uncaught st |}.

(** [reader.readAsDataURL(adjustedFile)] with the [onloadend] callback
    installed: the read is under way when the call returns. *)
Definition readAsDataURL (f : File) (st : state) : state :=
  {| selectedFile := selectedFile st; adjustedFile := adjustedFile st;
     cartoonImage := cartoonImage st;
     isProcessing := isProcessing st; selectedStyle := selectedStyle st;
     cartoonify_toast := cartoonify_toast st;
     reading := reading st ++ [{| image := f; style := selectedStyle st |}];
     in_flight := in_flight st; uncaught := uncaught st |}.

(** [handleCartoonify], up to its return: the [try] block only creates the
    reader and starts the read, then [finally] runs. *)
Definition handleCartoonify (st : state) : state :=
  match adjustedFile st with
  | None => st
  | Some f =>
      let st1 := setIsProcessing true st in
      let st2 := set_toast Loading st1 in
      let st3 := readAsDataURL f st2 in
      setIsProcessing false st3
  end.

(** [onloadend] of the oldest reader: the edge function is called. *)
Definition reader_loaded (st : state) : state :=
  match reading st with
  | [] => st
  | inv :: rest =>
      {| selectedFile := selectedFile st; adjustedFile := adjustedFile st;
         cartoonImage := cartoonImage st;
         isProcessing := isProcessing st; selectedStyle := selectedStyle st;
         cartoonify_toast := cartoonify_toast st;
         reading := rest;
         in_flight := in_flight st ++ [inv]; uncaught := uncaught st |}
  end.

(** What [invoke] resolves to: [error] set, or [data] with its
    [cartoon_image] if it has one. *)
Inductive invoke_result : Type :=
| InvokeError (message : string)
| InvokeData (cartoon_image : option string).

(** The rest of the callback once the [n]-th outstanding call is
    answered. *)
Definition answered (n : nat) (r : invoke_result) (st : state) : state :=
  match in_flight st !! n with
  | None => st
  | Some _ =>
      let rest := delete n (in_flight st) in
      let throw (msg : string) :=
        {| selectedFile := selectedFile st; adjustedFile := adjustedFile st;
           cartoonImage := cartoonImage st;
           isProcessing := isProcessing st; selectedStyle := selectedStyle st;
           cartoonify_toast := cartoonify_toast st;
           reading := reading st;
           in_flight := rest; uncaught := uncaught st ++ [msg] |} in
      match r with
      | InvokeError msg => throw msg
      | InvokeData (Some url) =>
          if String.eqb url "" then throw "No cartoon image returned"
          else
            {| selectedFile := selectedFile st; adjustedFile := adjustedFile st;
               cartoonImage := Some url;
               isProcessing := isProcessing st; selectedStyle := selectedStyle st;
               cartoonify_toast := Some Success;
               reading := reading st;
               in_flight := rest; uncaught := uncaught st |}
      | InvokeData None => throw "No cartoon image returned"
      end
  end.

(** The cartoonify button is rendered when a file is selected and no
    result is shown, and is disabled by [isProcessing]. *)
Definition cartoonify_enabled (st : state) : bool :=
  bool_decide (selectedFile st <> None) && bool_decide (cartoonImage st = None)
  && negb (isProcessing st).

(** What [handleDownload] hands to the browser: the link it clicks and
    the toast it shows. *)
Record download : Type := {
  href : string;
  download_name : string;
  notice : string
}.

(** [handleDownload] at the millisecond [now]. *)
Definition handleDownload (now : N) (st : state) : option download :=
  match cartoonImage st with
  | None => None
  | Some url =>
      if String.eqb url "" then None
      else Some {| href := url;
                   download_name := "cartoon-" +:+ pretty now +:+ ".png";
                   notice := "Image downloaded!" |}
  end.

End Index.

(** ** The style selector *)

Module StyleSelector.
Import Index.

Record entry : Type := {
  value : CartoonStyle;
  label : string;
  description : string
}.

Definition styles : list entry :=
  [ {| value := vibrant; label := "🎨 Vibrant"; description := "Bold colors & outlines" |};
    {| value := anime; label := "✨ Anime"; description := "Japanese animation style" |};
    {| value := comic; label := "💥 Comic"; description := "Comic book art style" |};
    {| value := watercolor; label := "🖌️ Watercolor"; description := "Soft painted style" |};
    {| value := sketch; label := "✏️ Sketch"; description := "Hand-drawn pencil style" |};
    {| value := pixar; label := "🎬 Pixar 3D"; description := "3D animated movie style" |};
    {| value := retro; label := "📺 Retro"; description := "Vintage 1950s cartoon" |};
    {| value := noir; label := "🎭 Noir"; description := "Black & white dramatic" |};
    {| value := popart; label := "🌟 Pop Art"; description := "Warhol-style bold colors" |};
    {| value := oil; label := "🖼️ Oil Paint"; description := "Classic oil painting" |};
    {| value := fantasy; label := "🧙 Fantasy"; description := "Magical fantasy art" |};
    {| value := minimalist; label := "⚡ Minimal"; description := "Simple clean lines" |} ].

(** [selectedStyle === style.value], the test that highlights a button. *)
Definition highlighted (selectedStyle : CartoonStyle) (e : entry) : bool :=
  String.eqb (tag selectedStyle) (tag (value e)).

End StyleSelector.

(** The page together with its two stateful children.  The editor is
    rendered, without a key, whenever a file is selected. *)

Module Page.
Import Canvas.

Record state : Type := {
  index : Index.state;
  editor : option ImageEditor.state;
  uploader : ImageUploader.state
}.

Definition initial : state :=
  {| index := Index.initial; editor := None; uploader := ImageUploader.initial |}.

(** The uploader calls [onImageSelect]: the page state changes and the
    editor is rendered with the new file, for the first time or again. *)
Definition onImageSelect (f : File) (pg : state) : state :=
  {| index := Index.handleImageSelect f (index pg);
     editor := Some match editor pg with
                    | None => ImageEditor.mount f
                    | Some e => ImageEditor.receive f e
                    end;
     uploader := uploader pg |}.

(** The editor calls [onImageAdjusted], if it has a file to report. *)
Definition onImageAdjusted (out : option File) (st : Index.state) : Index.state :=
  match out with
  | Some f => Index.handleImageAdjusted f st
  | None => st
  end.

(** What can happen to the page.  A drop carries the files dropped, each
    with the data URL a reader gives for it; gallery entries are addressed
    by their position; [ImageLoaded] is the end of the oldest image load
    under way in the editor.  An event for a control that is not on
    display, or is disabled, changes nothing. *)
Inductive event : Type :=
| Drop (files : list (File * string))
| PickCaptured (n : nat)
| DeleteCaptured (n : nat)
| StartWebcam (supported : bool) (o : ImageUploader.media_outcome) (played : bool)
| StopWebcam
| Capture (sh : ImageUploader.shot)
| ImageLoaded
| Adjust (f : ImageEditor.Adjustments -> ImageEditor.Adjustments)
| Reset
| ChangeStyle (s : Index.CartoonStyle)
| ClickCartoonify
| ReaderLoaded
| Answered (n : nat) (r : Index.invoke_result).

Definition in_index (f : Index.state -> Index.state) (pg : state) : state :=
  {| index := f (index pg); editor := editor pg; uploader := uploader pg |}.

Definition in_editor
    (f : ImageEditor.state -> ImageEditor.state * option File) (pg : state) : state :=
  match editor pg with
  | None => pg
  | Some e =>
      let '(e', out) := f e in
      {| index := onImageAdjusted out (index pg); editor := Some e';
         uploader := uploader pg |}
  end.

Definition in_uploader (f : ImageUploader.state -> ImageUploader.state)
    (pg : state) : state :=
  {| index := index pg; editor := editor pg; uploader := f (uploader pg) |}.

(** Which of the three views the uploader shows: the camera, the gallery
    to choose from, or the drop zone. *)
Definition gallery_view (u : ImageUploader.state) : bool :=
  negb (ImageUploader.isWebcamActive u)
  && negb (bool_decide (ImageUploader.capturedImages u = []))
  && bool_decide (ImageUploader.preview u = None).

Definition dropzone_view (u : ImageUploader.state) : bool :=
  negb (ImageUploader.isWebcamActive u) && negb (gallery_view u).

(** The two buttons that call [startWebcam]: "Capture More Photos" in the
    gallery, "Use Webcam" under an empty drop zone. *)
Definition webcam_button (pg : state) : bool :=
  gallery_view (uploader pg)
  || (dropzone_view (uploader pg)
      && bool_decide (ImageUploader.preview (uploader pg) = None)
      && negb (Index.isProcessing (index pg))).

Definition step (ev : event) (pg : state) : state :=
  match ev with
  | Drop files =>
      if dropzone_view (uploader pg) && negb (Index.isProcessing (index pg))
      then
        let '(u, out) :=
          ImageUploader.onDrop (ImageUploader.useDropzone_accepts files) (uploader pg) in
        let pg1 := {| index := index pg; editor := editor pg; uploader := u |} in
        match out with Some f => onImageSelect f pg1 | None => pg1 end
      else pg
  | PickCaptured n =>
      match ImageUploader.capturedImages (uploader pg) !! n with
      | Some image =>
          if ImageUploader.isWebcamActive (uploader pg) || gallery_view (uploader pg)
          then
            let '(u, f) := ImageUploader.selectImage image (uploader pg) in
            onImageSelect f {| index := index pg; editor := editor pg; uploader := u |}
          else pg
      | None => pg
      end
  | DeleteCaptured n =>
      match ImageUploader.capturedImages (uploader pg) !! n with
      | Some image =>
          if ImageUploader.isWebcamActive (uploader pg) || gallery_view (uploader pg)
          then in_uploader (ImageUploader.deleteImage (ImageUploader.id image)) pg
          else pg
      | None => pg
      end
  | StartWebcam supported o played =>
      if webcam_button pg
      then in_uploader (ImageUploader.startWebcam supported o played) pg
      else pg
  | StopWebcam =>
      if ImageUploader.isWebcamActive (uploader pg)
      then in_uploader ImageUploader.stopWebcam pg else pg
  | Capture sh =>
      if ImageUploader.isWebcamActive (uploader pg)
      then in_uploader (ImageUploader.capturePhoto sh) pg else pg
  | ImageLoaded => in_editor ImageEditor.image_loaded pg
  | Adjust f => in_editor (ImageEditor.change f) pg
  | Reset => in_editor ImageEditor.resetAdjustments pg
  | ChangeStyle s =>
      if Index.isProcessing (index pg)
         || bool_decide (Index.selectedFile (index pg) = None)
      then pg
      else in_index (Index.handleStyleChange s) pg
  | ClickCartoonify =>
      if Index.cartoonify_enabled (index pg)
      then in_index Index.handleCartoonify pg else pg
  | ReaderLoaded => in_index Index.reader_loaded pg
  | Answered n r => in_index (Index.answered n r) pg
  end.

Definition run (evs : list event) (pg : state) : state :=
  foldl (fun s ev => step ev s) pg evs.

(** The artifact a stylization request would carry. *)
Definition active_artifact (pg : state) : option File :=
  Index.adjustedFile (index pg).

(** What one expects of a page: the editor is there exactly when a file
    is selected, it shows that file, and there is then a file to submit. *)
Definition consistent (pg : state) : Prop :=
  match Index.selectedFile (index pg), editor pg with
  | None, None => Index.adjustedFile (index pg) = None
  | Some f, Some e =>
      ImageEditor.imageFile e = f /\ Index.adjustedFile (index pg) <> None
  | _, _ => False
  end.

End Page.

(** ** Sample inputs

    Concrete requests, responses, images and sessions on which the
    statements below are tried. *)

Module Sample.
Import JS Canvas.

Definition data_url : string := "data:image/png;base64,AAAA".

Definition post (fields : list (string * json)) : Endpoint.request :=
  {| Endpoint.method := "POST"; Endpoint.payload := inr (JObj fields) |}.

(** A well-formed request with the given extra fields. *)
Definition with_image (more : list (string * json)) : Endpoint.request :=
  post (("image", JStr data_url) :: more).

(** An upstream that answers every call the same way. *)
Definition answering (st : N) (b : string + json)
    : Endpoint.upstream_request -> Endpoint.fetch_outcome :=
  fun _ => Endpoint.Resolved {| Endpoint.status := st; Endpoint.body := b |}.

(** A chat completion carrying one generated image. *)
Definition completion (url : string) : json :=
  JObj [("choices",
         JArr [JObj [("message",
                      JObj [("images",
                             JArr [JObj [("image_url",
                                          JObj [("url", JStr url)])]])])]])].

(** Two small images and the files holding them. *)
Definition reddish : Raster :=
  {| width := 2; height := 1;
     pixels := [ Rgba 200 10 10 255;
                 Rgba 90 30 0 128 ] |}.

Definition bluish : Raster :=
  {| width := 1; height := 1;
     pixels := [ Rgba 0 40 220 255 ] |}.

Definition photo1 : File :=
  {| fname := "one.png"; ftype := "image/png"; fdata := reddish |}.

Definition photo2 : File :=
  {| fname := "two.jpg"; ftype := "image/jpeg"; fdata := bluish |}.

(** An image whose pixels are nearly or fully transparent. *)
Definition faint : Raster :=
  {| width := 2; height := 1;
     pixels := [ Rgba 200 10 10 3; Rgba 255 0 0 0 ] |}.

Definition photo3 : File :=
  {| fname := "faint.png"; ftype := "image/png"; fdata := faint |}.

(** An editor showing a file, loaded, at the given adjustments. *)
Definition showing (f : File) (adj : ImageEditor.Adjustments) : ImageEditor.state :=
  fst (ImageEditor.change (fun _ => adj)
         (fst (ImageEditor.image_loaded (ImageEditor.mount f)))).

(** An editor showing [photo1], loaded, at the given adjustments. *)
Definition editing (adj : ImageEditor.Adjustments) : ImageEditor.state :=
  showing photo1 adj.

Definition brighter : ImageEditor.Adjustments :=
  {| ImageEditor.brightness := 150; ImageEditor.contrast := 100;
     ImageEditor.saturation := 100 |}.

(** A capture session: the video element on display, no photo taken. *)
Definition capturing : ImageUploader.state :=
  {| ImageUploader.preview := None;
     ImageUploader.isWebcamActive := true;
     ImageUploader.capturedImages := [];
     ImageUploader.selectedImageId := None;
     ImageUploader.facingMode := ImageUploader.user;
     ImageUploader.quality := ImageUploader.medium;
     ImageUploader.streamRef := None;
     ImageUploader.srcObject := None;
     ImageUploader.toasts := [];
     ImageUploader.live := [];
     ImageUploader.handed_out := 0 |}.

(** A press of the capture button whose callbacks end at the given
    millisecond. *)
Definition shot_at (t : N) (r : Raster) : ImageUploader.shot :=
  {| ImageUploader.frame := Some r;
     ImageUploader.named_at := t;
     ImageUploader.loaded_at := t;
     ImageUploader.data_url := data_url |}.

Definition captured_at (t : N) (r : Raster) : ImageUploader.CapturedImage :=
  {| ImageUploader.file :=
       {| fname := "webcam-" +:+ pretty t +:+ ".png"; ftype := "image/png";
          fdata := r |};
     ImageUploader.preview_of := data_url;
     ImageUploader.id := pretty t |}.

Definition in_session (u : ImageUploader.state) : Page.state :=
  {| Page.index := Index.initial; Page.editor := None; Page.uploader := u |}.

(** Three photos taken in a capture session, their reads ending at the
    given milliseconds. *)
Definition three_shots (t1 t2 t3 : N) : ImageUploader.state :=
  ImageUploader.capturePhoto (shot_at t3 reddish)
    (ImageUploader.capturePhoto (shot_at t2 bluish)
       (ImageUploader.capturePhoto (shot_at t1 reddish) capturing)).

(** A camera view with one stream running. *)
Definition streaming : ImageUploader.state :=
  let s0 := {| ImageUploader.serial := 0; ImageUploader.facing := ImageUploader.user;
               ImageUploader.ideal := (1280, 720)%nat |} in
  {| ImageUploader.preview := None;
     ImageUploader.isWebcamActive := true;
     ImageUploader.capturedImages := [];
     ImageUploader.selectedImageId := None;
     ImageUploader.facingMode := ImageUploader.user;
     ImageUploader.quality := ImageUploader.medium;
     ImageUploader.streamRef := Some s0;
     ImageUploader.srcObject := Some s0;
     ImageUploader.toasts := [];
     ImageUploader.live := [s0];
     ImageUploader.handed_out := 1 |}.

End Sample.

(** * Properties *)

Import JS.

(** ** Style registry *)

Section StyleRegistry.
Import Endpoint.

Lemma stylePrompts_vibrant : stylePrompts !! "vibrant" = Some vibrant_text.
Proof. vm_compute. reflexivity. Qed.

(** Every tag of the selector has an entry of its own, and the lookup
    returns that entry, which is not empty. *)
Lemma promptText_enumerated (s : Index.CartoonStyle) :
  exists text,
    stylePrompts !! Index.tag s = Some text
    /\ text <> ""
    /\ promptText (JStr (Index.tag s)) = Ret (Data (JStr text)).
Proof.
  destruct s; vm_compute; eexists; (split; [reflexivity | split; [discriminate | reflexivity]]).
Qed.

(** A string that is neither in the table nor inherited falls back to the
    instruction of ["vibrant"]. *)
Lemma promptText_fallback (k : string) :
  stylePrompts !! k = None ->
  k ∉ object_prototype_names ->
  promptText (JStr k) = Ret (Data (JStr vibrant_text)).
Proof.
  intros Hk Hp. unfold promptText, get_property. cbn [to_string].
  rewrite Hk, stylePrompts_vibrant.
  rewrite bool_decide_eq_false_2 by exact Hp.
  reflexivity.
Qed.

(** A request without a [style] field is served as ["vibrant"]. *)
Lemma destructure_missing_style (b : json) :
  b <> JNull -> member f_style b = Undefined ->
  destructure b = Ret (member f_image b, JStr "vibrant")
  /\ promptText (JStr "vibrant") = Ret (Data (JStr vibrant_text)).
Proof.
  intros Hb Hs. split; [| vm_compute; reflexivity].
  unfold destructure, style_of. rewrite Hs. destruct b; [contradiction | reflexivity ..].
Qed.

End StyleRegistry.

(** ** The handler *)

Section Handler.
Import Endpoint.

#[local] Arguments promptText : simpl never.
#[local] Arguments pretty : simpl never.
#[local] Arguments String.eqb : simpl never.
#[local] Arguments String.append : simpl never.

(** The [catch] block turns whatever [relay] does into an answer. *)
Lemma relay_caught (r : upstream_response) :
  exists answer, try_catch (relay r) on_error = Ret answer.
Proof.
  unfold relay.
  destruct (negb (ok r)).
  - destruct (status r =? 429)%N; [eexists; reflexivity |].
    destruct (status r =? 402)%N; eexists; reflexivity.
  - destruct (body r) as [msg | data]; cbn; [eexists; reflexivity |].
    destruct data; cbn; try (eexists; reflexivity);
      match goal with |- context [truthy ?v] => destruct (truthy v) end;
      cbn; eexists; reflexivity.
Qed.

(** A request that gets as far as the hosted model: what the handler was
    before the call and how it goes on after it. *)
Lemma serve_fetches key upstream req rq calls out :
  respond key upstream req = (rq :: calls, out) ->
  calls = []
  /\ forall r, upstream rq = Resolved r ->
       exists answer, try_catch (relay r) on_error = Ret answer /\ out = inr answer.
Proof.
  unfold respond, serve.
  destruct (String.eqb (method req) "OPTIONS"); [cbn; discriminate |].
  destruct (payload req) as [msg | j]; [cbn; discriminate |].
  assert (Hgo : forall image style,
    run upstream
      (try_catch
         (if negb (truthy image)
          then Ret (json_response 400 (error_body "No image provided"))
          else
            promptText ← promptText style;
            match configured key with
            | None => Ret (json_response 500 (error_body "AI service not configured"))
            | Some k => response ← fetch (upstream_call k promptText image); relay response
            end) on_error) = (rq :: calls, out) ->
    calls = []
    /\ forall r, upstream rq = Resolved r ->
         exists answer, try_catch (relay r) on_error = Ret answer /\ out = inr answer).
  { intros image style.
    destruct (negb (truthy image)); [cbn; discriminate |].
    unfold promptText.
    destruct (to_string style) as [name |]; [| cbn; discriminate].
    destruct (configured key) as [k |]; [| cbn; discriminate].
    cbn. destruct (upstream _) as [e | r] eqn:Hup.
    - cbn. intros [= <- <- <-]. split; [reflexivity |].
      intros r Hr. rewrite Hr in Hup. discriminate.
    - destruct (relay_caught r) as [answer Ha].
      cbn. rewrite Ha. cbn. intros [= <- <- <-]. split; [reflexivity |].
      intros r' Hr. rewrite Hr in Hup. injection Hup as ->.
      exists answer. split; [exact Ha | reflexivity]. }
  destruct j; cbn; try discriminate; apply Hgo.
Qed.

End Handler.

Section HandlerContract.
Import Endpoint.

#[local] Arguments promptText : simpl never.
#[local] Arguments pretty : simpl never.
#[local] Arguments String.append : simpl never.

(** C3 (the code departs from the claim).  The lookup
    [stylePrompts[style] || stylePrompts.vibrant] follows the prototype
    chain: for the string ["constructor"], which is not in the table, it
    does not return the instruction of the default tag but the inherited
    function object, and the call to the hosted model is made with that
    object in place of an instruction text. *)
Theorem promptText_inherited_name :
  stylePrompts !! "constructor" = None
  /\ promptText (JStr "constructor") = Ret (Builtin "constructor")
  /\ promptText (JStr "constructor") <> Ret (Data (JStr vibrant_text))
  /\ fst (respond (Some "sk") (Sample.answering 200 (inr (Sample.completion "data:x")))
            (Sample.with_image [("style", JStr "constructor")]))
     = [upstream_call "sk" (Builtin "constructor") (Data (JStr Sample.data_url))].
Proof.
  repeat split; try discriminate; vm_compute; reflexivity.
Qed.

(** C4, as amended.  Whenever the handler has called the hosted model and
    received a response: status 429 is answered with 429 and the rate-limit
    message, status 402 with 402 and the payment message, any other status
    outside 200..299 with 500 and a message that ends with that status; a
    2xx response whose body is JSON other than [null] and holds no
    (truthy) image at [choices[0].message.images[0].image_url.url] is
    answered with 500 and "No cartoon image returned from AI"; a 2xx
    response whose body is [null], or is not JSON, is answered with 500
    and the message of the exception raised; and every answer that is not
    a 200 has a body of the form [{error: message}]. *)
Theorem relay_classifies key upstream req rq calls out r :
  respond key upstream req = (rq :: calls, out) ->
  upstream rq = Resolved r ->
  exists answer,
    out = inr answer
    /\ (status r = 429%N ->
        answer = json_response 429
                   (error_body "Rate limit exceeded. Please try again later."))
    /\ (status r = 402%N ->
        answer = json_response 402
                   (error_body "Payment required. Please add credits to your workspace."))
    /\ (ok r = false -> status r <> 429%N -> status r <> 402%N ->
        answer = json_response 500
                   (error_body ("Gemini AI error: " +:+ pretty (status r))))
    /\ (ok r = true -> forall data, body r = inr data -> data <> JNull ->
        truthy (generated_image data) = false ->
        answer = json_response 500 (error_body "No cartoon image returned from AI"))
    /\ (ok r = true -> body r = inr JNull ->
        answer = json_response 500
                   (error_body "Cannot read properties of null (reading 'choices')"))
    /\ (ok r = true -> forall msg, body r = inl msg ->
        answer = json_response 500 (error_body msg))
    /\ (rstatus answer <> 200%N -> exists msg, rbody answer = Some (error_body msg)).
Proof.
  intros Hrun Hup.
  destruct (serve_fetches _ _ _ _ _ _ Hrun) as [_ Hgo].
  destruct (Hgo r Hup) as (answer & Ha & ->).
  exists answer. split; [reflexivity |].
  unfold relay in Ha.
  repeat split.
  - intros H429. unfold ok in Ha. rewrite H429 in Ha. cbn in Ha. injection Ha as <-. reflexivity.
  - intros H402. unfold ok in Ha. rewrite H402 in Ha. cbn in Ha. injection Ha as <-. reflexivity.
  - intros Hok H429 H402. rewrite Hok in Ha. cbn in Ha.
    apply N.eqb_neq in H429, H402. rewrite H429, H402 in Ha.
    cbn in Ha. injection Ha as <-. reflexivity.
  - intros Hok data Hbody Hnull Himg. rewrite Hok, Hbody in Ha. cbn in Ha.
    assert (Hfirst : first_image data = Ret (generated_image data))
      by (destruct data; [contradiction | reflexivity ..]).
    rewrite Hfirst in Ha. cbn in Ha. rewrite Himg in Ha. cbn in Ha. injection Ha as <-. reflexivity.
  - intros Hok Hbody. rewrite Hok, Hbody in Ha. cbn in Ha. injection Ha as <-. reflexivity.
  - intros Hok msg Hbody. rewrite Hok, Hbody in Ha. cbn in Ha. injection Ha as <-. reflexivity.
  - intros Hst.
    destruct (negb (ok r)).
    + destruct (status r =? 429)%N; [injection Ha as <-; eexists; reflexivity |].
      destruct (status r =? 402)%N; injection Ha as <-; eexists; reflexivity.
    + destruct (body r) as [msg | data]; cbn in Ha;
        [injection Ha as <-; eexists; reflexivity |].
      destruct data; cbn in Ha;
        try (injection Ha as <-; eexists; reflexivity);
        match type of Ha with context [truthy ?v] => destruct (truthy v) end;
        cbn in Ha; injection Ha as <-;
        try (eexists; reflexivity); cbn in Hst; contradiction.
Qed.

(** For C4: a run in which the hosted model answers 503. *)
Lemma relay_classifies_witness :
  snd (respond (Some "sk") (Sample.answering 503 (inl "Unexpected token"))
         (Sample.with_image [("style", JStr "anime")]))
  = inr (json_response 500 (error_body "Gemini AI error: 503")).
Proof.
  set (up := Sample.answering 503 (inl "Unexpected token")).
  set (req := Sample.with_image [("style", JStr "anime")]).
  assert (Hrun : exists rq, respond (Some "sk") up req = ([rq], snd (respond (Some "sk") up req)))
    by (eexists; vm_compute; reflexivity).
  destruct Hrun as [rq Hrun].
  destruct (relay_classifies (Some "sk") up req rq [] _
              {| status := 503; body := inl "Unexpected token" |} Hrun eq_refl)
    as (answer & Hout & _ & _ & H503 & _).
  rewrite Hout. f_equal. apply H503.
  - reflexivity.
  - discriminate.
  - discriminate.
Defined.

(** C4, as stated, fails: a 200 response of the hosted model whose body is
    [null] holds no generated image, yet the answer is not the "no image"
    error but the message of the [TypeError] that [data.choices] raises. *)
Lemma relay_null_body_counterexample :
  ok {| status := 200; body := inr JNull |} = true
  /\ generated_image JNull = Undefined
  /\ respond (Some "sk") (Sample.answering 200 (inr JNull)) (Sample.with_image [])
     = ([upstream_call "sk" (Data (JStr vibrant_text)) (Data (JStr Sample.data_url))],
        inr (json_response 500
               (error_body "Cannot read properties of null (reading 'choices')")))
  /\ json_response 500 (error_body "Cannot read properties of null (reading 'choices')")
     <> json_response 500 (error_body "No cartoon image returned from AI").
Proof.
  repeat split; try discriminate; vm_compute; reflexivity.
Qed.

(** C5, as amended.  A request other than a preflight whose body is JSON
    other than [null] and has no (truthy) [image] is answered with 400 and
    "No image provided", whatever the credential, and the hosted model is
    not called.  A request that has an image and whose [style] can be
    turned into a property key (every string can, and so can a missing
    [style]), handled while the credential is missing or empty, is
    answered with 500 and "AI service not configured", and the hosted
    model is not called.  Three kinds of request are answered by the
    catch-all instead, with 500 and the message of the exception, again
    without a call: a body that is not JSON, the body [null], and a
    request with an image whose [style] cannot be turned into a property
    key (the style table is read before the credential).  Without the
    credential the hosted model is not called for any request at all. *)
Theorem validation_then_credential key upstream req :
  (forall j, method req <> "OPTIONS" -> payload req = inr j -> j <> JNull ->
     truthy (member f_image j) = false ->
     respond key upstream req
     = ([], inr (json_response 400 (error_body "No image provided"))))
  /\ (forall j, method req <> "OPTIONS" -> payload req = inr j ->
     truthy (member f_image j) = true -> to_string (style_of j) <> None ->
     configured key = None ->
     respond key upstream req
     = ([], inr (json_response 500 (error_body "AI service not configured"))))
  /\ (forall j, method req <> "OPTIONS" -> payload req = inr j ->
     truthy (member f_image j) = true -> to_string (style_of j) = None ->
     respond key upstream req
     = ([], inr (json_response 500
                   (error_body "Cannot convert object to primitive value"))))
  /\ (forall msg, method req <> "OPTIONS" -> payload req = inl msg ->
     respond key upstream req = ([], inr (json_response 500 (error_body msg))))
  /\ (method req <> "OPTIONS" -> payload req = inr JNull ->
     respond key upstream req
     = ([], inr (json_response 500
                   (error_body "Cannot destructure property 'image' of '(intermediate value)' as it is null."))))
  /\ (configured key = None -> fst (respond key upstream req) = []).
Proof.
  unfold respond, serve.
  split; [| split; [| split; [| split; [| split]]]].
  - intros j Hm Hp Hj Himg. apply String.eqb_neq in Hm. rewrite Hm, Hp.
    destruct j; try contradiction; cbn in *; rewrite ?Himg; reflexivity.
  - intros j Hm Hp Himg Hstyle Hkey. apply String.eqb_neq in Hm. rewrite Hm, Hp.
    assert (Hd : destructure j = Ret (member f_image j, style_of j))
      by (destruct j; [discriminate Himg | reflexivity ..]).
    cbn. unfold mbind, prog_bind. rewrite Hd. cbn. rewrite Himg. cbn.
    unfold promptText. destruct (to_string (style_of j)); [| contradiction].
    cbn. rewrite Hkey. reflexivity.
  - intros j Hm Hp Himg Hstyle. apply String.eqb_neq in Hm. rewrite Hm, Hp.
    assert (Hd : destructure j = Ret (member f_image j, style_of j))
      by (destruct j; [discriminate Himg | reflexivity ..]).
    cbn. unfold mbind, prog_bind. rewrite Hd. cbn. rewrite Himg. cbn.
    unfold promptText. rewrite Hstyle. reflexivity.
  - intros msg Hm Hp. apply String.eqb_neq in Hm. rewrite Hm, Hp. reflexivity.
  - intros Hm Hp. apply String.eqb_neq in Hm. rewrite Hm, Hp. reflexivity.
  - intros Hkey. destruct (String.eqb (method req) "OPTIONS"); [reflexivity |].
    destruct (payload req) as [msg | j]; [reflexivity |].
    assert (Hgo : forall image style,
      fst (run upstream
        (try_catch
           (if negb (truthy image)
            then Ret (json_response 400 (error_body "No image provided"))
            else
              promptText ← promptText style;
              match configured key with
              | None => Ret (json_response 500 (error_body "AI service not configured"))
              | Some k => response ← fetch (upstream_call k promptText image); relay response
              end) on_error)) = []).
    { intros image style. destruct (negb (truthy image)); [reflexivity |].
      unfold promptText. destruct (to_string style); [| reflexivity].
      cbn. rewrite Hkey. reflexivity. }
    destruct j; cbn; try reflexivity; apply Hgo.
Qed.

(** For C5: a request without an image, one with an image that meets a
    missing credential, and one whose style is an object with a [toString]
    entry of its own. *)
Lemma validation_then_credential_witness :
  respond (Some "sk") (Sample.answering 200 (inr JNull))
    (Sample.post [("style", JStr "anime")])
  = ([], inr (json_response 400 (error_body "No image provided")))
  /\ respond None (Sample.answering 200 (inr JNull)) (Sample.with_image [])
     = ([], inr (json_response 500 (error_body "AI service not configured")))
  /\ respond None (Sample.answering 200 (inr JNull))
       (Sample.with_image [("style", JObj [("toString", JNum 1)])])
     = ([], inr (json_response 500
                   (error_body "Cannot convert object to primitive value"))).
Proof.
  split; [| split].
  - apply (proj1 (validation_then_credential _ _ _) (JObj [("style", JStr "anime")]));
      [discriminate | reflexivity | discriminate | reflexivity].
  - apply (proj1 (proj2 (validation_then_credential _ _ _))
             (JObj [("image", JStr Sample.data_url)]));
      [discriminate | reflexivity | reflexivity | discriminate | reflexivity].
  - apply (proj1 (proj2 (proj2 (validation_then_credential _ _ _)))
             (JObj [("image", JStr Sample.data_url);
                    ("style", JObj [("toString", JNum 1)])]));
      [discriminate | reflexivity | reflexivity | reflexivity].
Defined.

(** C5, as stated, fails in both halves.  A request whose body is [null],
    or is not JSON at all, lacks an image and is answered with 500, not
    with the validation error 400.  And a request with an image whose
    style is [{toString: 1}], handled while the credential is absent, is
    answered with 500 and the message of a [TypeError], not with the
    configuration error. *)
Lemma missing_image_not_400_counterexample :
  member f_image JNull = Undefined
  /\ respond (Some "sk") (Sample.answering 200 (inr JNull))
       {| method := "POST"; payload := inr JNull |}
     = ([], inr (json_response 500
                   (error_body "Cannot destructure property 'image' of '(intermediate value)' as it is null.")))
  /\ respond (Some "sk") (Sample.answering 200 (inr JNull))
       {| method := "POST"; payload := inl "Unexpected end of JSON input" |}
     = ([], inr (json_response 500 (error_body "Unexpected end of JSON input")))
  /\ rstatus (json_response 500 (error_body "Unexpected end of JSON input")) <> 400%N
  /\ configured None = None
  /\ respond None (Sample.answering 200 (inr JNull))
       (Sample.with_image [("style", JObj [("toString", JNum 1)])])
     = ([], inr (json_response 500
                   (error_body "Cannot convert object to primitive value")))
  /\ json_response 500 (error_body "Cannot convert object to primitive value")
     <> json_response 500 (error_body "AI service not configured").
Proof.
  repeat split; try discriminate; vm_compute; reflexivity.
Qed.

End HandlerContract.

(** ** Canvas *)

Section CanvasStorage.
Import Canvas.

Lemma premultiply_opaque (c : Z) : premultiply c 255 = c.
Proof.
  unfold premultiply. symmetry. apply Z.div_unique with (r := 127%Z); lia.
Qed.

Lemma unpremultiply_opaque (c : Z) : channel_ok c -> unpremultiply c 255 = c.
Proof.
  intros [H0 H1]. unfold unpremultiply. cbn [Z.eqb].
  replace ((c * 255 + 255 / 2) / 255)%Z with c; [lia |].
  change (255 / 2)%Z with 127%Z.
  apply Z.div_unique with (r := 127%Z); lia.
Qed.

(** An opaque pixel comes back from the bitmap as it went in. *)
Lemma stored_opaque (p : Pixel) : pixel_ok p -> opaque p -> stored p = p.
Proof.
  destruct p as [r g b a | fs q]; [| contradiction].
  intros (Hr & Hg & Hb & _) Ha. cbn in Ha. subst a. unfold stored.
  rewrite !premultiply_opaque, !unpremultiply_opaque by assumption.
  reflexivity.
Qed.

Lemma read_back_neutral (fs : list filter_function) (p : Pixel) :
  forallb neutral fs = true -> pixel_ok p ->
  read_back (Drawn fs p) = Some (stored p).
Proof.
  intros Hfs Hp. cbn [read_back]. rewrite Hfs.
  destruct p; [reflexivity | contradiction].
Qed.

Lemma read_back_neutral_all (fs : list filter_function) (l : list Pixel) :
  forallb neutral fs = true -> Forall pixel_ok l ->
  read_back <$> (Drawn fs <$> l) = Some ∘ stored <$> l.
Proof.
  intros Hfs Hl. induction Hl as [| p l Hp _ IH]; [reflexivity |].
  cbn [fmap list_fmap]. cbn [fmap list_fmap] in IH.
  rewrite IH, (read_back_neutral fs p Hfs Hp). reflexivity.
Qed.

Lemma stored_opaque_all (l : list Pixel) :
  Forall pixel_ok l -> Forall opaque l -> Some ∘ stored <$> l = Some <$> l.
Proof.
  intros Hl Ho. induction Hl as [| p l Hp _ IH]; [reflexivity |].
  apply Forall_cons in Ho as [Hop Ho].
  cbn [fmap list_fmap]. cbn [fmap list_fmap] in IH.
  rewrite (IH Ho). cbn. rewrite (stored_opaque p Hp Hop). reflexivity.
Qed.

End CanvasStorage.

Section CanvasDrawing.
Import Canvas.

(** Drawing an image on a cleared canvas of the image's own size fills the
    bitmap with the pixels of the image, drawn through the filter. *)
Lemma draw_image_covers (img : Raster) (c : canvas) :
  cwidth c = width img ->
  cheight c = height img ->
  (0 < width img)%nat ->
  length (bitmap c) = (width img * height img)%nat ->
  length (pixels img) = (width img * height img)%nat ->
  bitmap (draw_image img c) = map (Drawn (filter c)) (pixels img).
Proof.
  intros Hw Hh Hpos Hlen Himg. unfold draw_image. cbn [bitmap].
  apply list_eq. intros i. rewrite list_lookup_imap.
  destruct (decide (i < width img * height img)%nat) as [Hi | Hi].
  - destruct (lookup_lt_is_Some_2 (bitmap c) i) as [old Hold]; [lia |].
    rewrite Hold. cbn [fmap option_fmap option_map]. rewrite Hw.
    assert (Hx : (i mod width img < width img)%nat) by (apply Nat.mod_upper_bound; lia).
    assert (Hy : (i / width img < height img)%nat)
      by (apply Nat.Div0.div_lt_upper_bound; lia).
    apply Nat.ltb_lt in Hx as Hx'. apply Nat.ltb_lt in Hy as Hy'.
    rewrite Hx', Hy'. cbn [andb].
    replace (i / width img * width img + i mod width img)%nat with i
      by (rewrite (Nat.div_mod_eq i (width img)) at 1; lia).
    rewrite nth_lookup.
    destruct (lookup_lt_is_Some_2 (map (Drawn (filter c)) (pixels img)) i)
      as [px Hpx]; [rewrite length_map; lia |].
    rewrite Hpx. reflexivity.
  - rewrite (lookup_ge_None_2 (bitmap c)) by lia.
    rewrite lookup_ge_None_2 by (rewrite length_map; lia). reflexivity.
Qed.

End CanvasDrawing.

(** ** The adjustment stage *)

Section AdjustmentStage.
Import Canvas ImageEditor.

Lemma applyFilters_rendered (img : Raster) (adj : Adjustments) (st : state) (c : canvas) :
  canvasRef st = Some c -> foreign c = false -> raster_ok img ->
  applyFilters img adj st = with_canvas (rendered img adj) st.
Proof.
  intros Hc Hf (Hw & Hh & Hlen & _). unfold applyFilters. rewrite Hc, Hf.
  f_equal. unfold rendered.
  set (c2 := set_filter (filter_of adj) (resize (width img) (height img) c)).
  assert (Hb : bitmap (draw_image img c2)
               = map (Drawn (filter_of adj)) (pixels img)).
  { apply (draw_image_covers img c2); cbn; try reflexivity; try assumption.
    apply length_replicate. }
  unfold set_filter at 1. rewrite Hb. cbn. rewrite Hf. reflexivity.
Qed.

Lemma render_effect_rendered (st : state) (img : Raster) (c : canvas) :
  originalImage st = Some img -> canvasRef st = Some c -> foreign c = false ->
  raster_ok img ->
  render_effect st
  = (with_canvas (rendered img (adjustments st)) st,
     Some {| fname := fname (imageFile st); ftype := "image/png";
             fdata := {| width := width img; height := height img;
                         pixels := map (Drawn (filter_of (adjustments st)))
                                       (pixels img) |} |}).
Proof.
  intros Ho Hc Hf Hok. unfold render_effect. rewrite Ho.
  rewrite (applyFilters_rendered img _ st c Hc Hf Hok).
  f_equal. unfold exportAdjustedImage, toBlob. cbn.
  destruct Hok as (Hw & Hh & _).
  destruct (width img); [lia |]. destruct (height img); [lia |]. reflexivity.
Qed.



(** A load that completes with a decoded image: the image is drawn with
    the adjustments of the moment and exported under the name of the file
    on display. *)
Lemma image_loaded_rendered (st : state) (f : File) (a : Adjustments)
    (rest : list (File * Adjustments)) (c : canvas) :
  decoding st = (f, a) :: rest -> canvasRef st = Some c -> foreign c = false ->
  raster_ok (fdata f) ->
  image_loaded st
  = ({| imageFile := imageFile st; adjustments := adjustments st;
        originalImage := Some (fdata f);
        canvasRef := Some (rendered (fdata f) (adjustments st));
        decoding := rest |},
     Some {| fname := fname (imageFile st); ftype := "image/png";
             fdata := {| width := width (fdata f); height := height (fdata f);
                         pixels := map (Drawn (filter_of (adjustments st)))
                                       (pixels (fdata f)) |} |}).
Proof.
  intros Hd Hc Hf Hok. unfold image_loaded. rewrite Hd.
  erewrite applyFilters_rendered; [| exact Hc | exact Hf | exact Hok].
  erewrite render_effect_rendered; [reflexivity | reflexivity | reflexivity | | exact Hok].
  reflexivity.
Qed.




(** C6, as amended.  For a decoded source image, the render under the
    default adjustments reports a file of the source's dimensions in which
    every pixel is the source pixel as the canvas bitmap (8 bits,
    premultiplied by alpha) gives it back; when the source image is fully
    opaque that is the source image, pixel for pixel.  And whatever
    adjustments were rendered before, pressing reset reports the same
    again. *)
Theorem default_render_reads_back (st : state) (img : Raster) (c : canvas) :
  originalImage st = Some img -> canvasRef st = Some c -> foreign c = false ->
  raster_ok img ->
  (adjustments st = default_adjustments ->
   exists out,
     snd (render_effect st) = Some out
     /\ width (fdata out) = width img /\ height (fdata out) = height img
     /\ read_back <$> pixels (fdata out) = Some ∘ stored <$> pixels img
     /\ (Forall opaque (pixels img) ->
         read_back <$> pixels (fdata out) = Some <$> pixels img))
  /\ (forall adj,
        exists out,
          snd (resetAdjustments (fst (change (fun _ => adj) st))) = Some out
          /\ width (fdata out) = width img /\ height (fdata out) = height img
          /\ read_back <$> pixels (fdata out) = Some ∘ stored <$> pixels img
          /\ (Forall opaque (pixels img) ->
              read_back <$> pixels (fdata out) = Some <$> pixels img)).
Proof.
  intros Ho Hc Hf Hok.
  assert (Hdefault : forall st' c',
            originalImage st' = Some img -> canvasRef st' = Some c' ->
            foreign c' = false -> adjustments st' = default_adjustments ->
            exists out,
              snd (render_effect st') = Some out
              /\ width (fdata out) = width img /\ height (fdata out) = height img
              /\ read_back <$> pixels (fdata out) = Some ∘ stored <$> pixels img
              /\ (Forall opaque (pixels img) ->
                  read_back <$> pixels (fdata out) = Some <$> pixels img)).
  { intros st' c' Ho' Hc' Hf' Hadj.
    rewrite (render_effect_rendered st' img c' Ho' Hc' Hf' Hok), Hadj.
    eexists. split; [reflexivity |]. cbn [fdata width height pixels snd].
    assert (Hr : read_back <$> map (Drawn (filter_of default_adjustments)) (pixels img)
                 = Some ∘ stored <$> pixels img)
      by (apply read_back_neutral_all; [reflexivity | apply Hok]).
    split; [reflexivity |]. split; [reflexivity |]. split; [exact Hr |].
    intros Hop. rewrite Hr. apply stored_opaque_all; [apply Hok | exact Hop]. }
  split.
  - intros Hadj. exact (Hdefault st c Ho Hc Hf Hadj).
  - intros adj. unfold resetAdjustments, change.
    rewrite (render_effect_rendered (setAdjustments (fun _ => adj) st) img c Ho Hc Hf Hok).
    cbn [fst].
    eapply Hdefault; reflexivity || exact Ho.
Qed.

(** For C6: an editor showing an opaque image, brought to brightness 150
    and then reset. *)
Lemma default_render_reads_back_witness :
  exists out,
    snd (resetAdjustments (fst (change (fun _ => Sample.brighter)
                                  (Sample.showing Sample.photo2 default_adjustments))))
    = Some out
    /\ read_back <$> pixels (fdata out) = [Some (Rgba 0 40 220 255)].
Proof.
  destruct (proj2 (default_render_reads_back
                     (Sample.showing Sample.photo2 default_adjustments)
                     Sample.bluish (rendered Sample.bluish default_adjustments)
                     eq_refl eq_refl eq_refl
                     ltac:(repeat split; cbn; try lia; repeat constructor; cbn; lia))
             Sample.brighter)
    as (out & Hout & _ & _ & _ & Hop).
  exists out. split; [exact Hout |].
  apply Hop. repeat constructor.
Defined.

(** C6, as stated, fails: an image with a nearly transparent and a fully
    transparent pixel, rendered under the default triple, does not come
    back pixel for pixel.  The first pixel returns with other colour
    values, the second as transparent black. *)
Lemma default_render_translucent_counterexample :
  adjustments (Sample.showing Sample.photo3 default_adjustments) = default_adjustments
  /\ exists out,
       snd (render_effect (Sample.showing Sample.photo3 default_adjustments)) = Some out
       /\ read_back <$> pixels (fdata out)
          = [Some (Rgba 170 0 0 3); Some (Rgba 0 0 0 0)]
       /\ read_back <$> pixels (fdata out) <> Some <$> pixels Sample.faint.
Proof.
  split; [reflexivity |]. eexists. split; [vm_compute; reflexivity |].
  split; [vm_compute; reflexivity | vm_compute; discriminate].
Qed.

End AdjustmentStage.

(** ** The page and its editor *)

Section PageAndEditor.
Import Canvas ImageEditor.




End PageAndEditor.

(** ** The page state *)

Section PageState.
Import Index.

Lemma in_editor_keeps_selection f (pg : Page.state) :
  selectedFile (Page.index (Page.in_editor f pg)) = selectedFile (Page.index pg)
  /\ selectedStyle (Page.index (Page.in_editor f pg)) = selectedStyle (Page.index pg).
Proof.
  unfold Page.in_editor. destruct (Page.editor pg) as [e |]; [| split; reflexivity].
  destruct (f e) as [e' [out |]]; split; reflexivity.
Qed.

(** X27.  Selecting an image and changing the style both leave no cartoon
    result on display at that moment; selecting an image keeps the style,
    changing the style keeps the selected and the adjusted file.  On the
    page as a whole: right after any event that has changed the selected
    file or the selected style, no result is on display. *)
Theorem select_or_restyle_clears_result (pg : Page.state) :
  (forall f,
     let st' := Page.index (Page.onImageSelect f pg) in
     cartoonImage st' = None
     /\ selectedFile st' = Some f /\ adjustedFile st' = Some f
     /\ selectedStyle st' = selectedStyle (Page.index pg))
  /\ (forall s,
     let st' := handleStyleChange s (Page.index pg) in
     cartoonImage st' = None
     /\ selectedStyle st' = s
     /\ selectedFile st' = selectedFile (Page.index pg)
     /\ adjustedFile st' = adjustedFile (Page.index pg))
  /\ (forall ev,
     let st' := Page.index (Page.step ev pg) in
     selectedFile st' <> selectedFile (Page.index pg)
     \/ selectedStyle st' <> selectedStyle (Page.index pg) ->
     cartoonImage st' = None).
Proof.
  split; [repeat split |]. split; [repeat split |].
  assert (Hsame : forall pg' : Page.state,
            selectedFile (Page.index pg') = selectedFile (Page.index pg) ->
            selectedStyle (Page.index pg') = selectedStyle (Page.index pg) ->
            selectedFile (Page.index pg') <> selectedFile (Page.index pg)
            \/ selectedStyle (Page.index pg') <> selectedStyle (Page.index pg) ->
            cartoonImage (Page.index pg') = None).
  { intros pg' Hf Hs [H | H]; contradiction. }
  intros ev. destruct ev; cbn [Page.step].
  - destruct (_ && _); [| apply Hsame; reflexivity].
    destruct (ImageUploader.onDrop _ _) as [u [f |]]; [reflexivity |].
    apply Hsame; reflexivity.
  - destruct (_ !! n); [| apply Hsame; reflexivity].
    destruct (_ || _); [| apply Hsame; reflexivity].
    destruct (ImageUploader.selectImage _ _) as [u f]. reflexivity.
  - destruct (_ !! n); [| apply Hsame; reflexivity].
    destruct (_ || _); apply Hsame; reflexivity.
  - destruct (Page.webcam_button pg); apply Hsame; reflexivity.
  - destruct (ImageUploader.isWebcamActive _); apply Hsame; reflexivity.
  - destruct (ImageUploader.isWebcamActive _); apply Hsame; reflexivity.
  - apply Hsame; apply in_editor_keeps_selection.
  - apply Hsame; apply in_editor_keeps_selection.
  - apply Hsame; apply in_editor_keeps_selection.
  - destruct (_ || _); [apply Hsame; reflexivity | reflexivity].
  - destruct (cartoonify_enabled _); [| apply Hsame; reflexivity].
    apply Hsame; cbn; unfold handleCartoonify;
      destruct (adjustedFile _); reflexivity.
  - apply Hsame; cbn; unfold reader_loaded; destruct (reading _); reflexivity.
  - apply Hsame; cbn; unfold answered; destruct (in_flight _ !! n); try reflexivity;
      destruct r as [msg | [url |]]; try reflexivity;
      destruct (String.eqb url ""); reflexivity.
Qed.

(** For X27: with a result on display for the first photo, the second
    photo is picked; and the style is changed. *)
Lemma select_or_restyle_clears_result_witness :
  let shown :=
    Page.run [ Page.Drop [(Sample.photo1, Sample.data_url)];
               Page.ClickCartoonify; Page.ReaderLoaded;
               Page.Answered 0 (InvokeData (Some "data:image/png;base64,BBBB")) ]
      Page.initial in
  cartoonImage (Page.index shown) = Some "data:image/png;base64,BBBB"
  /\ cartoonImage
       (Page.index (Page.step (Page.Drop [(Sample.photo2, Sample.data_url)]) shown))
     = None
  /\ cartoonImage (Page.index (Page.step (Page.ChangeStyle anime) shown)) = None.
Proof.
  cbv zeta. split; [reflexivity |]. split.
  - apply (proj2 (proj2 (select_or_restyle_clears_result _))
             (Page.Drop [(Sample.photo2, Sample.data_url)])).
    left. discriminate.
  - apply (proj2 (proj2 (select_or_restyle_clears_result _)) (Page.ChangeStyle anime)).
    right. discriminate.
Defined.

(** [handleCartoonify] returns with the flag down and one more read under
    way; no call has been made yet. *)
Lemma handleCartoonify_returns (st : state) (f : Canvas.File) :
  adjustedFile st = Some f ->
  isProcessing (handleCartoonify st) = false
  /\ reading (handleCartoonify st)
     = (reading st ++ [{| image := f; style := selectedStyle st |}])%list
  /\ in_flight (handleCartoonify st) = in_flight st.
Proof. intros H. unfold handleCartoonify. rewrite H. repeat split. Qed.

Lemma onImageSelect_keeps_flag (f : Canvas.File) (pg : Page.state) :
  isProcessing (Page.index (Page.onImageSelect f pg)) = isProcessing (Page.index pg).
Proof. reflexivity. Qed.

Lemma in_editor_keeps_flag f (pg : Page.state) :
  isProcessing (Page.index (Page.in_editor f pg)) = isProcessing (Page.index pg).
Proof.
  unfold Page.in_editor. destruct (Page.editor pg) as [e |]; [| reflexivity].
  destruct (f e) as [e' [out |]]; reflexivity.
Qed.

Lemma step_keeps_flag_down (ev : Page.event) (pg : Page.state) :
  isProcessing (Page.index pg) = false ->
  isProcessing (Page.index (Page.step ev pg)) = false.
Proof.
  intros H. destruct ev; cbn [Page.step].
  - destruct (_ && _); [| exact H].
    destruct (ImageUploader.onDrop _ _) as [u [f |]]; exact H.
  - destruct (_ !! n); [| exact H]. destruct (_ || _); [| exact H].
    destruct (ImageUploader.selectImage _ _) as [u f]. exact H.
  - destruct (_ !! n); [| exact H]. destruct (_ || _); exact H.
  - destruct (Page.webcam_button pg); exact H.
  - destruct (ImageUploader.isWebcamActive _); exact H.
  - destruct (ImageUploader.isWebcamActive _); exact H.
  - rewrite in_editor_keeps_flag. exact H.
  - rewrite in_editor_keeps_flag. exact H.
  - rewrite in_editor_keeps_flag. exact H.
  - destruct (_ || _); exact H.
  - destruct (cartoonify_enabled _); [| exact H]. cbn.
    unfold handleCartoonify. destruct (adjustedFile _); [reflexivity | exact H].
  - cbn. unfold reader_loaded. destruct (reading _); exact H.
  - cbn. unfold answered. destruct (in_flight _ !! n); [| exact H].
    destruct r as [msg | [url |]]; try exact H.
    destruct (String.eqb url ""); exact H.
Qed.

(** Between two events the flag is never up. *)
Lemma flag_never_observed (evs : list Page.event) :
  isProcessing (Page.index (Page.run evs Page.initial)) = false.
Proof.
  unfold Page.run.
  induction evs as [| ev evs IH] using rev_ind; [reflexivity |].
  rewrite foldl_app. cbn [foldl]. apply step_keeps_flag_down, IH.
Qed.

(** C1 (the code departs from the claim).  [handleCartoonify] lowers the
    flag in its [finally] block as soon as the file read has been started,
    before the request is sent from the reader's callback.  After one
    click and the end of the read a request is outstanding with the flag
    down and the button enabled; a second click sends a second request
    while the first is still outstanding. *)
Theorem second_request_while_in_flight :
  let submit := [ Page.ClickCartoonify; Page.ReaderLoaded ] in
  let pg1 := Page.run (Page.Drop [(Sample.photo1, Sample.data_url)] :: submit)
               Page.initial in
  let pg2 := Page.run submit pg1 in
  let request := {| image := Sample.photo1; style := vibrant |} in
  in_flight (Page.index pg1) = [request]
  /\ isProcessing (Page.index pg1) = false
  /\ cartoonify_enabled (Page.index pg1) = true
  /\ in_flight (Page.index pg2) = [request; request]
  /\ isProcessing (Page.index pg2) = false.
Proof. repeat split. Qed.

(** C10 (the code departs from the claim).  The flag [isProcessing] being
    down while a request is outstanding, the uploader and the style
    selector stay enabled.  A request is sent for the first photo; the
    second photo is then dropped, which clears the (empty) result; the
    answer to the request arrives and is put on display, with the second
    photo selected.  Likewise a request sent under one style is answered
    after the style has been changed, and its result is on display under
    the new style. *)
Theorem stale_result_on_display :
  let sent := [ Page.Drop [(Sample.photo1, Sample.data_url)];
                Page.ClickCartoonify; Page.ReaderLoaded ] in
  let answer := Page.Answered 0 (InvokeData (Some "data:image/png;base64,BBBB")) in
  let pg0 := Page.run sent Page.initial in
  let pg1 := Page.run [Page.Drop [(Sample.photo2, Sample.data_url)]; answer] pg0 in
  let pg2 := Page.run [Page.ChangeStyle anime; answer] pg0 in
  in_flight (Page.index pg0) = [{| image := Sample.photo1; style := vibrant |}]
  /\ isProcessing (Page.index pg0) = false
  /\ selectedFile (Page.index pg1) = Some Sample.photo2
  /\ Page.active_artifact pg1 = Some Sample.photo2
  /\ cartoonImage (Page.index pg1) = Some "data:image/png;base64,BBBB"
  /\ selectedStyle (Page.index pg2) = anime
  /\ cartoonImage (Page.index pg2) = Some "data:image/png;base64,BBBB".
Proof. repeat split. Qed.

(** An error answer is thrown inside the reader's callback, where nothing
    catches it: the loading toast stays. *)
Lemma failure_escapes_callback :
  let pg := Page.run [ Page.Drop [(Sample.photo1, Sample.data_url)];
                       Page.ClickCartoonify; Page.ReaderLoaded;
                       Page.Answered 0 (InvokeError "Payment required") ]
              Page.initial in
  uncaught (Page.index pg) = ["Payment required"]
  /\ cartoonify_toast (Page.index pg) = Some Loading
  /\ selectedFile (Page.index pg) = Some Sample.photo1.
Proof. repeat split. Qed.

End PageState.

(** ** Camera and gallery *)

Section Capture.
Import Canvas ImageUploader.

(** With the API present, [startWebcam] never raises [isWebcamActive]: the
    flag is raised only where [videoRef.current] is set, and the video
    element is rendered only while the flag is up. *)
Lemma startWebcam_never_shows (o : media_outcome) (played : bool) (st : state) :
  isWebcamActive (startWebcam true o played st) = false.
Proof.
  unfold startWebcam, videoRef. cbn [negb].
  destruct (isWebcamActive st) eqn:Ha; destruct o; cbn; rewrite ?Ha; cbn;
    try reflexivity; exact Ha.
Qed.

(** Started while the flag is down, [startWebcam] stops nothing: every
    stream that was live stays live, and one more is added. *)
Lemma startWebcam_keeps_live (played : bool) (st : state) :
  isWebcamActive st = false ->
  live (startWebcam true Granted played st)
  = (live st ++ [{| serial := handed_out st; facing := facingMode st;
                    ideal := QUALITY_PRESETS (quality st) |}])%list.
Proof.
  intros Ha. unfold startWebcam, videoRef. cbn [negb]. rewrite Ha. cbn.
  rewrite Ha. reflexivity.
Qed.

(** C8 (the code departs from the claim).  From the initial state, two
    calls of [startWebcam] in a row, both granted a stream: the first
    leaves [isWebcamActive] down, so the second does not call
    [stopWebcam]; it overwrites [streamRef], and the tracks of both
    streams are running, the first stream being out of reach. *)
Theorem startWebcam_twice_two_streams :
  let st1 := startWebcam true Granted true initial in
  let st2 := startWebcam true Granted true st1 in
  let s0 := {| serial := 0; facing := user; ideal := (1280, 720)%nat |} in
  let s1 := {| serial := 1; facing := user; ideal := (1280, 720)%nat |} in
  isWebcamActive st1 = false
  /\ live st1 = [s0] /\ streamRef st1 = Some s0
  /\ live st2 = [s0; s1] /\ streamRef st2 = Some s1
  /\ live (stopWebcam st2) = [s0]
  /\ Page.uploader
       (Page.run [ Page.StartWebcam true Granted true;
                   Page.StartWebcam true Granted true ] Page.initial) = st2.
Proof. repeat split. Qed.

(** C9 (the code departs from the claim).  On the fresh page the camera
    is started, a stream is granted, and the capture button is pressed
    three times.  [startWebcam] has left [isWebcamActive] down, so the
    camera view with its capture button is not on display and
    [capturePhoto] does not run: the gallery holds no entry, not three,
    there is nothing to select or delete, and nothing to submit, while the
    stream obtained keeps running. *)
Theorem capture_session_not_reached :
  let pg := Page.run [ Page.StartWebcam true Granted true;
                       Page.Capture (Sample.shot_at 1000 Sample.reddish);
                       Page.Capture (Sample.shot_at 1001 Sample.bluish);
                       Page.Capture (Sample.shot_at 1002 Sample.reddish) ]
              Page.initial in
  isWebcamActive (Page.uploader pg) = false
  /\ capturedImages (Page.uploader pg) = []
  /\ length (capturedImages (Page.uploader pg)) <> 3%nat
  /\ Page.active_artifact pg = None
  /\ live (Page.uploader pg)
     = [{| serial := 0; facing := user; ideal := (1280, 720)%nat |}].
Proof. repeat split. discriminate. Qed.

End Capture.

(** * Further properties *)

(** ** The handler, beyond the claims *)

Section HandlerMore.
Import Endpoint.

#[local] Arguments promptText : simpl never.
#[local] Arguments pretty : simpl never.
#[local] Arguments String.append : simpl never.

(** Either the handler answers without calling the hosted model, or it
    makes one call, built from the credential and the request, and answers
    with what [relay] or the [catch] block makes of the outcome. *)
Lemma serve_shape key req :
  (exists answer, forall upstream, respond key upstream req = ([], inr answer))
  \/ (exists k parsed name,
        method req <> "OPTIONS" /\ payload req = inr parsed
        /\ configured key = Some k
        /\ truthy (member f_image parsed) = true
        /\ to_string (style_of parsed) = Some name
        /\ forall upstream,
             let rq := upstream_call k
                         (or_else (get_property stylePrompts name)
                                  (get_property stylePrompts "vibrant"))
                         (member f_image parsed) in
             exists answer,
               respond key upstream req = ([rq], inr answer)
               /\ match upstream rq with
                  | Rejected e => on_error e = Ret answer
                  | Resolved r => try_catch (relay r) on_error = Ret answer
                  end).
Proof.
  unfold respond, serve.
  destruct (String.eqb (method req) "OPTIONS") eqn:Hm;
    [left; eexists; intros; reflexivity |].
  apply String.eqb_neq in Hm.
  destruct (payload req) as [msg | parsed] eqn:Hp;
    [left; eexists; intros; reflexivity |].
  assert (Hcase : parsed = JNull \/ parsed <> JNull)
    by (destruct parsed; [left; reflexivity | right; discriminate ..]).
  destruct Hcase as [-> | Hnull];
    [left; eexists; intros; reflexivity |].
  assert (Hd : destructure parsed = Ret (member f_image parsed, style_of parsed))
    by (destruct parsed; [contradiction | reflexivity ..]).
  unfold mbind, prog_bind. cbn [bind parse]. rewrite Hd. cbn [bind].
  destruct (truthy (member f_image parsed)) eqn:Himg;
    [| left; eexists; intros; reflexivity].
  cbn [negb]. unfold promptText.
  destruct (to_string (style_of parsed)) as [name |] eqn:Hname;
    [| left; eexists; intros; reflexivity].
  cbn [bind].
  destruct (configured key) as [k |] eqn:Hk;
    [| left; eexists; intros; reflexivity].
  right. exists k, parsed, name.
  split; [exact Hm |]. split; [reflexivity |]. split; [reflexivity |].
  split; [exact Himg |]. split; [exact Hname |].
  intros upstream.
  set (rq := upstream_call k _ _). cbn. fold rq.
  destruct (upstream rq) as [e | r].
  - eexists. split; reflexivity.
  - destruct (relay_caught r) as [answer Ha]. cbn. rewrite !Ha. cbn.
    exists answer. split; reflexivity.
Qed.

(** X1.  Whatever the request, the credential and the hosted model do, the
    handler ends with an answer (nothing is thrown out of it) and has
    called the hosted model at most once. *)
Theorem serve_answers_with_one_call_at_most key upstream req :
  exists answer,
    snd (respond key upstream req) = inr answer
    /\ (length (fst (respond key upstream req)) <= 1)%nat.
Proof.
  destruct (serve_shape key req) as [[answer H] | (k & parsed & name & _ & _ & _ & _ & _ & H)].
  - exists answer. rewrite H. split; [reflexivity | cbn; lia].
  - destruct (H upstream) as (answer & -> & _).
    exists answer. split; [reflexivity | cbn; lia].
Qed.

(** X2.  When a call is made, it is the only one, it carries the
    credential as a bearer token and the request's [image] as it came
    (which is truthy), it names the image model and asks for image and
    text; and the request was not a preflight. *)
Theorem serve_forwards_image key upstream req rq calls out :
  respond key upstream req = (rq :: calls, out) ->
  exists k parsed,
    configured key = Some k /\ payload req = inr parsed
    /\ method req <> "OPTIONS"
    /\ authorization rq = "Bearer " +:+ k
    /\ image_url rq = member f_image parsed
    /\ truthy (image_url rq) = true
    /\ model rq = "google/gemini-2.5-flash-image-preview"
    /\ modalities rq = ["image"; "text"]
    /\ calls = [].
Proof.
  intros Hrun.
  destruct (serve_shape key req)
    as [[answer H] | (k & parsed & name & Hm & Hp & Hk & Himg & _ & H)].
  - rewrite H in Hrun. discriminate.
  - destruct (H upstream) as (answer & Hr & _). rewrite Hr in Hrun.
    injection Hrun as <- <- <-.
    exists k, parsed. repeat split; assumption || reflexivity.
Qed.

Lemma serve_forwards_image_witness :
  exists k parsed,
    configured (Some "sk") = Some k
    /\ payload (Sample.with_image []) = inr parsed
    /\ member f_image parsed = Data (JStr Sample.data_url).
Proof.
  destruct (serve_forwards_image (Some "sk") (Sample.answering 503 (inl "x"))
              (Sample.with_image [])
              (upstream_call "sk" (Data (JStr vibrant_text)) (Data (JStr Sample.data_url)))
              [] (inr (json_response 500 (error_body "Gemini AI error: 503"))))
    as (k & parsed & Hk & Hp & _ & _ & Himg & _).
  - vm_compute. reflexivity.
  - exists k, parsed. repeat split; [exact Hk | exact Hp |].
    rewrite <- Himg. reflexivity.
Defined.

Lemma opt_member_data (f : field) (v : value) :
  opt_member f v = Undefined \/ exists j, opt_member f v = Data j.
Proof.
  assert (Hm : forall j, member f j = Undefined \/ exists j', member f j = Data j').
  { intros j. destruct j as [| | | s | items | fields]; cbn; auto.
    - destruct f, s; cbn; eauto.
    - destruct f; cbn; auto. destruct (items !! 0%nat); cbn; eauto.
    - destruct (own_property _ _); cbn; eauto. }
  destruct v as [| j |]; cbn; auto. destruct j; auto.
Qed.

(** X3.  When the hosted model answers in the 2xx range with a body that
    holds a (truthy) image address at
    [choices[0].message.images[0].image_url.url], the handler answers 200
    with exactly that value under [cartoon_image]. *)
Theorem serve_returns_generated_image key upstream req rq calls out r data :
  respond key upstream req = (rq :: calls, out) ->
  upstream rq = Resolved r ->
  ok r = true -> body r = inr data ->
  truthy (generated_image data) = true ->
  exists j,
    generated_image data = Data j
    /\ out = inr (json_response 200 (JObj [("cartoon_image", j)])).
Proof.
  intros Hrun Hup Hok Hbody Himg.
  destruct (serve_fetches _ _ _ _ _ _ Hrun) as [_ Hgo].
  destruct (Hgo r Hup) as (answer & Ha & ->).
  assert (Hnull : data <> JNull) by (intros ->; discriminate).
  assert (Hfirst : first_image data = Ret (generated_image data))
    by (destruct data; [contradiction | reflexivity ..]).
  unfold relay in Ha. rewrite Hok, Hbody in Ha. cbn in Ha.
  rewrite Hfirst in Ha. cbn in Ha. rewrite Himg in Ha. cbn in Ha.
  destruct (opt_member_data f_url
              (opt_member f_image_url
                 (opt_member first
                    (opt_member f_images
                       (opt_member f_message
                          (opt_member first (member f_choices data)))))))
    as [Hu | [j Hj]].
  - unfold generated_image in Himg. rewrite Hu in Himg. discriminate.
  - exists j. split; [exact Hj |].
    unfold generated_image in Ha. rewrite Hj in Ha. cbn in Ha.
    injection Ha as <-. reflexivity.
Qed.

Lemma serve_returns_generated_image_witness :
  snd (respond (Some "sk")
         (Sample.answering 200 (inr (Sample.completion "data:image/png;base64,BBBB")))
         (Sample.with_image [("style", JStr "noir")]))
  = inr (json_response 200 (JObj [("cartoon_image", JStr "data:image/png;base64,BBBB")])).
Proof.
  set (up := Sample.answering 200 (inr (Sample.completion "data:image/png;base64,BBBB"))).
  set (req := Sample.with_image [("style", JStr "noir")]).
  assert (Hrun : exists rq, respond (Some "sk") up req = ([rq], snd (respond (Some "sk") up req)))
    by (eexists; vm_compute; reflexivity).
  destruct Hrun as [rq Hrun].
  destruct (serve_returns_generated_image (Some "sk") up req rq [] _
              {| status := 200;
                 body := inr (Sample.completion "data:image/png;base64,BBBB") |}
              (Sample.completion "data:image/png;base64,BBBB")
              Hrun eq_refl eq_refl eq_refl eq_refl) as (j & Hj & Hout).
  rewrite Hout. injection Hj as <-. reflexivity.
Defined.

(** X4.  A request whose body is not JSON, or is the JSON value [null], is
    answered with status 500 and the message of the exception that reading
    it raised; the hosted model is not called. *)
Theorem serve_unreadable_body key upstream req :
  method req <> "OPTIONS" ->
  (forall msg, payload req = inl msg ->
     respond key upstream req = ([], inr (json_response 500 (error_body msg))))
  /\ (payload req = inr JNull ->
     respond key upstream req
     = ([], inr (json_response 500
                   (error_body "Cannot destructure property 'image' of '(intermediate value)' as it is null.")))).
Proof.
  intros Hm. apply String.eqb_neq in Hm. unfold respond, serve. rewrite Hm.
  split.
  - intros msg ->. reflexivity.
  - intros ->. reflexivity.
Qed.

Lemma serve_unreadable_body_witness :
  respond None (Sample.answering 200 (inr JNull))
    {| method := "POST"; payload := inl "Unexpected end of JSON input" |}
  = ([], inr (json_response 500 (error_body "Unexpected end of JSON input"))).
Proof.
  apply (proj1 (serve_unreadable_body None (Sample.answering 200 (inr JNull))
                  {| method := "POST"; payload := inl "Unexpected end of JSON input" |}
                  ltac:(discriminate))).
  reflexivity.
Defined.

(** X5.  When the call to the hosted model fails outright, the handler
    answers 500 with the message of the error, or with "Failed to
    cartoonify image" when what was thrown is not an error object; it does
    not call again. *)
Theorem serve_fetch_rejected key upstream req rq calls out e :
  respond key upstream req = (rq :: calls, out) ->
  upstream rq = Rejected e ->
  calls = []
  /\ out = inr (json_response 500
                  (error_body match e with
                              | Error message => message
                              | Thrown => "Failed to cartoonify image"
                              end)).
Proof.
  intros Hrun Hup.
  destruct (serve_shape key req) as [[answer H] | (k & parsed & name & _ & _ & _ & _ & _ & H)].
  - rewrite H in Hrun. discriminate.
  - destruct (H upstream) as (answer & Hr & Hans). rewrite Hr in Hrun.
    injection Hrun as <- <- <-. rewrite Hup in Hans.
    injection Hans as <-. split; reflexivity.
Qed.

Lemma serve_fetch_rejected_witness :
  snd (respond (Some "sk") (fun _ => Rejected (Error "connection refused"))
         (Sample.with_image []))
  = inr (json_response 500 (error_body "connection refused")).
Proof.
  set (up := fun _ : upstream_request => Rejected (Error "connection refused")).
  assert (Hrun : exists rq, respond (Some "sk") up (Sample.with_image [])
                            = ([rq], snd (respond (Some "sk") up (Sample.with_image []))))
    by (eexists; vm_compute; reflexivity).
  destruct Hrun as [rq Hrun].
  destruct (serve_fetch_rejected (Some "sk") up (Sample.with_image []) rq [] _
              (Error "connection refused") Hrun eq_refl) as [_ Hout].
  exact Hout.
Defined.

End HandlerMore.

Section RegistryMore.
Import Endpoint.

Lemma stylePrompts_nonempty (k s : string) : stylePrompts !! k = Some s -> s <> "".
Proof.
  unfold stylePrompts. intros H. apply elem_of_list_to_map_2 in H.
  unfold stylePrompts_entries in H.
  repeat (apply elem_of_cons in H as [H | H]; [injection H as -> ->; discriminate |]).
  apply elem_of_nil in H. contradiction.
Qed.

(** X6.  Take any JSON value arriving as [style] (a string or not) whose
    numbers are integers below [10^21] in magnitude.  If it can be turned
    into a property key, the instruction handed to the model is one of
    three things: the non-empty table entry under that key; the inherited
    object when the key is a name of [Object.prototype]; the instruction
    of ["vibrant"] otherwise; so it is never [undefined] and never empty.
    If it cannot, the read of the table throws the [TypeError] of the
    conversion.  A string is its own key; an object cannot be converted
    exactly when it has a [toString] entry of its own. *)
Theorem promptText_cases (style : json) :
  prints_in_digits style = true ->
  match to_string style with
  | Some k =>
      ((exists s, stylePrompts !! k = Some s /\ s <> ""
                  /\ promptText style = Ret (Data (JStr s)))
       \/ (stylePrompts !! k = None /\ (k ∈ object_prototype_names)
           /\ promptText style = Ret (Builtin k))
       \/ (stylePrompts !! k = None /\ (k ∉ object_prototype_names)
           /\ promptText style = Ret (Data (JStr vibrant_text))))
      /\ (exists v, promptText style = Ret v /\ truthy v = true)
  | None => promptText style = Throw cannot_convert
  end
  /\ (forall s, style = JStr s -> to_string style = Some s)
  /\ (forall fields, style = JObj fields ->
        (to_string style = None <-> is_Some (own_property "toString" fields))).
Proof.
  intros _. split; [| split].
  - unfold promptText, get_property.
    destruct (to_string style) as [k |]; [| reflexivity].
    rewrite stylePrompts_vibrant.
    destruct (stylePrompts !! k) as [s |] eqn:Hk.
    + pose proof (stylePrompts_nonempty k s Hk) as Hs.
      assert (Ht : truthy (Data (JStr s)) = true).
      { cbn. destruct s; [contradiction | reflexivity]. }
      unfold or_else. rewrite Ht. split; [| eauto]. left. exists s. auto.
    + destruct (decide (k ∈ object_prototype_names)) as [Hin | Hnin].
      * rewrite bool_decide_eq_true_2 by exact Hin. split; [| eexists; split; reflexivity].
        right. left. auto.
      * rewrite bool_decide_eq_false_2 by exact Hnin.
        split; [| eexists; split; reflexivity].
        right. right. auto.
  - intros s ->. reflexivity.
  - intros fields ->. cbn. destruct (own_property "toString" fields).
    + split; [eauto | reflexivity].
    + split; [discriminate | intros [x Hx]; discriminate].
Qed.

(** For X6: an array holding one tag is served as that tag, and an object
    with a [toString] entry of its own stops the handler. *)
Lemma promptText_cases_witness :
  (exists s, stylePrompts !! "anime" = Some s
             /\ promptText (JArr [JStr "anime"]) = Ret (Data (JStr s)))
  /\ promptText (JObj [("toString", JNum 1)]) = Throw cannot_convert.
Proof.
  split.
  - destruct (proj1 (promptText_cases (JArr [JStr "anime"]) eq_refl))
      as [[(s & Hs & _ & Hp) | [(Hn & _) | (Hn & _)]] _].
    + exists s. split; [exact Hs | exact Hp].
    + vm_compute in Hn. discriminate.
    + vm_compute in Hn. discriminate.
  - exact (proj1 (promptText_cases (JObj [("toString", JNum 1)]) eq_refl)).
Defined.

Lemma tag_listed (k s : string) :
  stylePrompts !! k = Some s -> exists t, k = Index.tag t.
Proof.
  unfold stylePrompts. intros H. apply elem_of_list_to_map_2 in H.
  unfold stylePrompts_entries in H.
  repeat (apply elem_of_cons in H as [H | H];
          [injection H as -> _;
           first [ exists Index.vibrant; reflexivity | exists Index.anime; reflexivity
                 | exists Index.comic; reflexivity | exists Index.watercolor; reflexivity
                 | exists Index.sketch; reflexivity | exists Index.pixar; reflexivity
                 | exists Index.retro; reflexivity | exists Index.noir; reflexivity
                 | exists Index.popart; reflexivity | exists Index.oil; reflexivity
                 | exists Index.fantasy; reflexivity | exists Index.minimalist; reflexivity ] |]).
  apply elem_of_nil in H. contradiction.
Qed.

(** X7.  The selector and the handler agree on the styles: the keys of the
    handler's table are exactly the tags of [CartoonStyle]; the selector
    offers every tag exactly once; and for any selected style exactly one
    button is highlighted, the one of that style. *)
Theorem styles_match_table :
  (forall k, is_Some (stylePrompts !! k) <-> exists t, k = Index.tag t)
  /\ (forall t, t ∈ (StyleSelector.value <$> StyleSelector.styles))
  /\ NoDup (Index.tag <$> (StyleSelector.value <$> StyleSelector.styles))
  /\ (forall t,
        StyleSelector.value
          <$> List.filter (StyleSelector.highlighted t) StyleSelector.styles = [t]).
Proof.
  split; [| split; [| split]].
  - intros k. split.
    + intros [s Hs]. exact (tag_listed k s Hs).
    + intros [t ->]. destruct (promptText_enumerated t) as (text & Ht & _). eauto.
  - intros t. destruct t; cbn; set_solver.
  - apply (bool_decide_unpack _). vm_compute. reflexivity.
  - intros t. destruct t; reflexivity.
Qed.

End RegistryMore.

(** ** The editor, beyond the claims *)

Section EditorMore.
Import Canvas ImageEditor.

Lemma applyFilters_keeps (img : Raster) (adj : Adjustments) (st : state) :
  adjustments (applyFilters img adj st) = adjustments st
  /\ originalImage (applyFilters img adj st) = originalImage st
  /\ imageFile (applyFilters img adj st) = imageFile st
  /\ decoding (applyFilters img adj st) = decoding st.
Proof.
  unfold applyFilters. destruct (canvasRef st) as [c |]; [| repeat split].
  destruct (foreign c); repeat split.
Qed.

Lemma render_effect_keeps (st : state) :
  adjustments (fst (render_effect st)) = adjustments st
  /\ originalImage (fst (render_effect st)) = originalImage st
  /\ imageFile (fst (render_effect st)) = imageFile st.
Proof.
  unfold render_effect. destruct (originalImage st) as [img |] eqn:Ho.
  - cbn [fst]. destruct (applyFilters_keeps img (adjustments st) st) as (H1 & H2 & H3 & _).
    rewrite H1, H2, H3. repeat split; assumption.
  - cbn [fst]. repeat split; assumption.
Qed.

(** X8.  The reset button is on display exactly when the triple differs
    from 100/100/100, and pressing it brings the triple back to
    100/100/100, so that the button goes away. *)
Theorem hasAdjustments_iff (st : state) :
  (hasAdjustments st = false <-> adjustments st = default_adjustments)
  /\ adjustments (fst (resetAdjustments st)) = default_adjustments
  /\ hasAdjustments (fst (resetAdjustments st)) = false.
Proof.
  assert (Hiff : forall s, hasAdjustments s = false <-> adjustments s = default_adjustments).
  { intros s. unfold hasAdjustments, default_adjustments.
    destruct (adjustments s) as [b c sa]. cbn.
    rewrite !orb_false_iff, !negb_false_iff, !N.eqb_eq. split.
    - intros [[-> ->] ->]. reflexivity.
    - intros [= -> -> ->]. auto. }
  assert (Hreset : adjustments (fst (resetAdjustments st)) = default_adjustments).
  { unfold resetAdjustments, change.
    destruct (render_effect_keeps (setAdjustments (fun _ => default_adjustments) st))
      as (H & _). rewrite H. reflexivity. }
  split; [apply Hiff |]. split; [exact Hreset |]. apply Hiff, Hreset.
Qed.

(** X9.  The output of a render depends on the source image, the triple
    and the file name only: two editors that agree on these report the
    same file and end with the same canvas, whatever their canvases held
    before; and rendering again without any change reports the same file
    again. *)
Theorem render_depends_on_source_and_triple (st1 st2 : state) (img : Raster)
    (c1 c2 : canvas) :
  originalImage st1 = Some img -> originalImage st2 = Some img ->
  adjustments st1 = adjustments st2 ->
  fname (imageFile st1) = fname (imageFile st2) ->
  canvasRef st1 = Some c1 -> foreign c1 = false ->
  canvasRef st2 = Some c2 -> foreign c2 = false ->
  raster_ok img ->
  snd (render_effect st1) = snd (render_effect st2)
  /\ canvasRef (fst (render_effect st1)) = canvasRef (fst (render_effect st2))
  /\ render_effect (fst (render_effect st1)) = render_effect st1.
Proof.
  intros Ho1 Ho2 Hadj Hname Hc1 Hf1 Hc2 Hf2 Hok.
  assert (Hagain : render_effect (fst (render_effect st1)) = render_effect st1).
  { rewrite (render_effect_rendered st1 img c1 Ho1 Hc1 Hf1 Hok). cbn [fst].
    rewrite (render_effect_rendered (with_canvas (rendered img (adjustments st1)) st1)
               img (rendered img (adjustments st1)) Ho1 eq_refl eq_refl Hok).
    reflexivity. }
  split; [| split; [| exact Hagain]].
  - rewrite (render_effect_rendered st1 img c1 Ho1 Hc1 Hf1 Hok).
    rewrite (render_effect_rendered st2 img c2 Ho2 Hc2 Hf2 Hok).
    cbn [snd]. rewrite Hadj, Hname. reflexivity.
  - rewrite (render_effect_rendered st1 img c1 Ho1 Hc1 Hf1 Hok).
    rewrite (render_effect_rendered st2 img c2 Ho2 Hc2 Hf2 Hok).
    cbn. rewrite Hadj. reflexivity.
Qed.

Lemma render_depends_on_source_and_triple_witness :
  snd (render_effect (Sample.editing Sample.brighter))
  = snd (render_effect
           (with_canvas new_canvas (Sample.editing Sample.brighter))).
Proof.
  refine (proj1 (render_depends_on_source_and_triple
                   (Sample.editing Sample.brighter)
                   (with_canvas new_canvas (Sample.editing Sample.brighter))
                   Sample.reddish (rendered Sample.reddish Sample.brighter) new_canvas
                   eq_refl eq_refl eq_refl eq_refl eq_refl eq_refl eq_refl eq_refl _)).
  repeat split; cbn; try lia; repeat constructor; cbn; lia.
Defined.

(** X10.  Between the moment the editor receives another file and the
    moment that file's image has loaded, a change of the adjustments
    re-renders the image loaded before: the file reported to the page has
    the name of the new file and holds the old image, drawn through the
    new adjustments. *)
Theorem adjust_before_load_exports_old_image (st : state) (old : Raster) (c : canvas)
    (g : File) (f : Adjustments -> Adjustments) :
  originalImage st = Some old -> canvasRef st = Some c -> foreign c = false ->
  raster_ok old ->
  snd (change f (receive g st))
  = Some {| fname := fname g; ftype := "image/png";
            fdata := {| width := width old; height := height old;
                        pixels := map (Drawn (filter_of (f (adjustments st))))
                                      (pixels old) |} |}.
Proof.
  intros Ho Hc Hf Hok. unfold change.
  erewrite render_effect_rendered; [reflexivity | exact Ho | exact Hc | exact Hf | exact Hok].
Qed.

Lemma adjust_before_load_exports_old_image_witness :
  exists out,
    snd (change (set_brightness 150)
           (receive Sample.photo2 (Sample.editing default_adjustments))) = Some out
    /\ fname out = "two.jpg"
    /\ width (fdata out) = width Sample.reddish
    /\ pixels (fdata out)
       = map (Drawn [brightness_pct 150; contrast_pct 100; saturate_pct 100])
             (pixels Sample.reddish).
Proof.
  eexists. split.
  - apply (adjust_before_load_exports_old_image (Sample.editing default_adjustments)
             Sample.reddish (rendered Sample.reddish default_adjustments)
             Sample.photo2 (set_brightness 150) eq_refl eq_refl eq_refl).
    repeat split; cbn; try lia; repeat constructor; cbn; lia.
  - repeat split.
Defined.

(** X11.  When the oldest load under way completes, what is drawn last and
    reported is its image under the adjustments of that moment, not under
    those the load had closed over; the file reported bears the name of
    the file the editor shows at that moment, which is another file's
    name when the editor has received a newer file in between; the other
    loads stay under way. *)
Theorem image_loaded_uses_current_adjustments (st : state) (f : File)
    (adj0 : Adjustments) (rest : list (File * Adjustments)) (c : canvas) :
  decoding st = (f, adj0) :: rest -> canvasRef st = Some c -> foreign c = false ->
  raster_ok (fdata f) ->
  let img := fdata f in
  originalImage (fst (image_loaded st)) = Some img
  /\ canvasRef (fst (image_loaded st)) = Some (rendered img (adjustments st))
  /\ snd (image_loaded st)
     = Some {| fname := fname (imageFile st); ftype := "image/png";
               fdata := {| width := width img; height := height img;
                           pixels := map (Drawn (filter_of (adjustments st)))
                                         (pixels img) |} |}
  /\ decoding (fst (image_loaded st)) = rest.
Proof.
  intros Hd Hc Hf Hok img.
  rewrite (image_loaded_rendered st f adj0 rest c Hd Hc Hf Hok).
  repeat split.
Qed.

(** For X11: a second file is received before the first has loaded, and
    the adjustments are changed; the first load then reports the first
    image under the second file's name, and the second load stays under
    way. *)
Lemma image_loaded_uses_current_adjustments_witness :
  let st := setAdjustments (fun _ => Sample.brighter)
              (receive Sample.photo2 (mount Sample.photo1)) in
  canvasRef (fst (image_loaded st)) = Some (rendered Sample.reddish Sample.brighter)
  /\ (fname <$> snd (image_loaded st)) = Some "two.jpg"
  /\ decoding (fst (image_loaded st)) = [(Sample.photo2, default_adjustments)].
Proof.
  intros st.
  destruct (image_loaded_uses_current_adjustments st
              Sample.photo1 default_adjustments [(Sample.photo2, default_adjustments)]
              new_canvas eq_refl eq_refl eq_refl
              ltac:(repeat split; cbn; try lia; repeat constructor; cbn; lia))
    as (_ & Hc & Hout & Hd).
  rewrite Hc, Hout, Hd. repeat split.
Defined.

End EditorMore.

(** ** The uploader, beyond the claims *)

Section UploaderMore.
Import Canvas ImageUploader.

(** X12.  [stopWebcam] can be repeated without further effect; it leaves
    no stream in [streamRef] and the flag down; of the running streams it
    stops exactly those with the serial number of the stream that was in
    [streamRef], and none if there was none; gallery, selection and
    preview are not touched. *)
Theorem stopWebcam_releases (st : state) :
  stopWebcam (stopWebcam st) = stopWebcam st
  /\ streamRef (stopWebcam st) = None
  /\ isWebcamActive (stopWebcam st) = false
  /\ (forall s, streamRef st = Some s ->
      forall t, In t (live (stopWebcam st)) <-> In t (live st) /\ serial t <> serial s)
  /\ (streamRef st = None -> live (stopWebcam st) = live st)
  /\ capturedImages (stopWebcam st) = capturedImages st
  /\ selectedImageId (stopWebcam st) = selectedImageId st
  /\ preview (stopWebcam st) = preview st.
Proof.
  split; [reflexivity |]. split; [reflexivity |]. split; [reflexivity |].
  split; [| split; [| repeat split]].
  - intros s Hs t. unfold stopWebcam. cbn [live]. rewrite Hs.
    rewrite List.filter_In. unfold same_stream.
    rewrite negb_true_iff, Nat.eqb_neq. split; intros [H1 H2]; split; auto.
  - intros Hs. unfold stopWebcam. cbn [live]. rewrite Hs. reflexivity.
Qed.

Lemma stopWebcam_releases_witness :
  live (stopWebcam Sample.streaming) = []
  /\ live (stopWebcam (startWebcam true Granted true
                         (startWebcam true Granted true initial)))
     = [{| serial := 0; facing := user; ideal := (1280, 720)%nat |}].
Proof.
  split.
  - destruct (live (stopWebcam Sample.streaming)) as [| t l] eqn:E; [reflexivity |].
    destruct (proj1 (proj1 (proj2 (proj2 (proj2 (stopWebcam_releases Sample.streaming))))
                       {| serial := 0; facing := user; ideal := (1280, 720)%nat |}
                       eq_refl t)) as [Hin Hne].
    + rewrite E. left. reflexivity.
    + destruct Hin as [<- | []]. contradiction Hne. reflexivity.
  - reflexivity.
Defined.

Lemma startWebcam_of_self (supported : bool) (o : media_outcome) (played : bool)
    (st : state) :
  startWebcam_of st supported o played st = startWebcam supported o played st.
Proof.
  unfold startWebcam_of, startWebcam.
  destruct (negb supported); [reflexivity |].
  destruct (isWebcamActive st); reflexivity.
Qed.

(** X13.  A start that fails, because the browser has no camera API or
    because [getUserMedia] refuses, obtains no stream: no stream is added
    to those running, [streamRef] holds none that was not there, and
    exactly one message is shown; gallery and preview are as before. *)
Theorem startWebcam_failure_acquires_nothing (supported : bool) (o : media_outcome)
    (played : bool) (st : state) :
  supported = false \/ (exists name, o = Refused name) ->
  let st' := startWebcam supported o played st in
  handed_out st' = handed_out st
  /\ (forall t, In t (live st') -> In t (live st))
  /\ (streamRef st' = None \/ streamRef st' = streamRef st)
  /\ (exists msg, toasts st' = (toasts st ++ [msg])%list)
  /\ capturedImages st' = capturedImages st
  /\ preview st' = preview st.
Proof.
  intros H st'. subst st'. unfold startWebcam.
  destruct supported.
  - destruct H as [H | [name ->]]; [discriminate |]. cbn [negb].
    destruct (isWebcamActive st).
    + cbn. repeat split; eauto.
      intros t. destruct (streamRef st); [| auto].
      rewrite List.filter_In. tauto.
    + cbn. repeat split; eauto.
  - cbn. repeat split; eauto.
Qed.

Lemma startWebcam_failure_acquires_nothing_witness :
  live (startWebcam true (Refused "NotAllowedError") true initial) = []
  /\ toasts (startWebcam true (Refused "NotAllowedError") true initial)
     = ["Camera permission denied. Please enable permissions."].
Proof.
  destruct (startWebcam_failure_acquires_nothing true (Refused "NotAllowedError") true
              initial (or_intror (ex_intro _ "NotAllowedError" eq_refl)))
    as (_ & Hlive & _ & _ & _ & _).
  split; [| reflexivity].
  destruct (live (startWebcam true (Refused "NotAllowedError") true initial)) as [| t l];
    [reflexivity |].
  destruct (Hlive t (or_introl eq_refl)).
Defined.

(** X14.  [deleteImage] removes every entry with the given id and keeps
    the others in their order; when the id is not the selected one, the
    selection and the preview stay; deleting the same id again changes
    nothing. *)
Theorem deleteImage_removes_id (i : string) (st : state) :
  (forall e, In e (capturedImages (deleteImage i st))
             <-> In e (capturedImages st) /\ id e <> i)
  /\ (selectedImageId st <> Some i ->
      selectedImageId (deleteImage i st) = selectedImageId st
      /\ preview (deleteImage i st) = preview st)
  /\ deleteImage i (deleteImage i st) = deleteImage i st
  /\ (length (capturedImages (deleteImage i st)) <= length (capturedImages st))%nat.
Proof.
  split; [| split; [| split]].
  - intros e. unfold deleteImage. cbn [capturedImages].
    rewrite List.filter_In, negb_true_iff, String.eqb_neq. tauto.
  - intros Hsel. unfold deleteImage. cbn.
    rewrite bool_decide_eq_false_2 by exact Hsel. split; reflexivity.
  - unfold deleteImage. cbn.
    assert (Hf : forall l : list CapturedImage,
              List.filter (fun img => negb (String.eqb (id img) i))
                (List.filter (fun img => negb (String.eqb (id img) i)) l)
              = List.filter (fun img => negb (String.eqb (id img) i)) l).
    { induction l as [| e l IH]; [reflexivity |]. cbn.
      destruct (negb (String.eqb (id e) i)) eqn:He; cbn; rewrite ?He, IH; reflexivity. }
    rewrite Hf.
    destruct (bool_decide (selectedImageId st = Some i)) eqn:Hsel.
    + rewrite bool_decide_eq_false_2 by discriminate. reflexivity.
    + rewrite Hsel. reflexivity.
  - unfold deleteImage. cbn [capturedImages]. apply List.filter_length_le.
Qed.

Lemma deleteImage_removes_id_witness :
  selectedImageId
    (deleteImage "1000"
       (fst (selectImage (Sample.captured_at 1001 Sample.bluish)
               (Sample.three_shots 1000 1001 1002)))) = Some "1001".
Proof.
  rewrite (proj1 (proj1 (proj2 (deleteImage_removes_id "1000"
             (fst (selectImage (Sample.captured_at 1001 Sample.bluish)
                     (Sample.three_shots 1000 1001 1002))))) ltac:(discriminate))).
  reflexivity.
Defined.

(** X15.  [capturePhoto] only ever adds to the end of the gallery, and at
    most one entry; it adds none when the video element is not on display
    or no frame could be encoded.  Selection, preview, the flag and the
    streams are as before. *)
Theorem capturePhoto_extends_gallery (sh : shot) (st : state) :
  let st' := capturePhoto sh st in
  (exists more, capturedImages st' = (capturedImages st ++ more)%list
                /\ (length more <= 1)%nat
                /\ (isWebcamActive st = false \/ frame sh = None -> more = []))
  /\ selectedImageId st' = selectedImageId st
  /\ preview st' = preview st
  /\ isWebcamActive st' = isWebcamActive st
  /\ streamRef st' = streamRef st
  /\ live st' = live st.
Proof.
  unfold capturePhoto, videoRef.
  destruct (isWebcamActive st) eqn:Ha.
  - destruct (frame sh) as [r |] eqn:Hf.
    + cbn. split; [| repeat split; symmetry; exact Ha].
      eexists. split; [reflexivity |]. split; [cbn; lia |].
      intros [H | H]; discriminate.
    + split; [| repeat split; exact Ha].
      exists []. rewrite app_nil_r. repeat split. cbn. lia.
  - split; [| repeat split; exact Ha].
    exists []. rewrite app_nil_r. repeat split. cbn. lia.
Qed.

Lemma capturePhoto_extends_gallery_witness :
  capturedImages (capturePhoto (Sample.shot_at 1000 Sample.reddish) initial) = [].
Proof.
  destruct (proj1 (capturePhoto_extends_gallery (Sample.shot_at 1000 Sample.reddish) initial))
    as (more & E & _ & Hnone).
  rewrite E, (Hnone (or_introl eq_refl)). reflexivity.
Defined.

(** [closeGallery] empties the gallery, clears selection and
    preview, and stops the stream in [streamRef]: the uploader shows the
    drop zone again, with the camera settings unchanged.  Doing it again
    changes nothing. *)
Theorem closeGallery_returns_to_dropzone (st : state) :
  let st' := closeGallery st in
  capturedImages st' = [] /\ selectedImageId st' = None /\ preview st' = None
  /\ isWebcamActive st' = false /\ streamRef st' = None
  /\ Page.dropzone_view st' = true
  /\ facingMode st' = facingMode st /\ quality st' = quality st
  /\ closeGallery st' = st'.
Proof. repeat split. Qed.

(** X16.  Toggling the camera while it is on display stops the stream and
    puts a restart on the timer; the restart runs the [startWebcam] of the
    render in which the toggle was pressed, so the stream it obtains is
    asked for with the facing mode from before the toggle, while the state
    and the stored setting hold the new one; and, the video element being
    gone by then, the camera view does not come back. *)
Theorem toggleCamera_restarts_with_old_mode (played : bool) (st : state) :
  isWebcamActive st = true ->
  let '(st1, item, timer) := toggleCamera st in
  let st2 := startWebcam_of st true Granted played st1 in
  timer = true
  /\ streamRef st1 = None
  /\ facingMode st2 <> facingMode st
  /\ item = ("camera-facing", facing_name (facingMode st2))
  /\ (exists s, streamRef st2 = Some s /\ facing s = facingMode st /\ In s (live st2))
  /\ isWebcamActive st2 = false.
Proof.
  intros Ha. unfold toggleCamera. rewrite Ha.
  unfold startWebcam_of, videoRef. rewrite Ha. cbn.
  repeat split.
  - destruct (facingMode st); discriminate.
  - eexists. split; [reflexivity |]. split; [reflexivity |].
    apply in_or_app. right. left. reflexivity.
Qed.

Lemma toggleCamera_restarts_with_old_mode_witness :
  facing <$> streamRef
               (startWebcam_of Sample.streaming true Granted true
                  (fst (fst (toggleCamera Sample.streaming)))) = Some user
  /\ facingMode (fst (fst (toggleCamera Sample.streaming))) = environment.
Proof.
  generalize (toggleCamera_restarts_with_old_mode true Sample.streaming eq_refl).
  vm_compute. intros (_ & _ & _ & _ & (s & Hs & Hf & _) & _).
  split; reflexivity.
Defined.

(** X17.  Changing the quality while the camera is on display behaves the
    same way: the restarted stream is asked for with the resolution of the
    preset from before the change. *)
Theorem changeQuality_restarts_with_old_preset (newQuality : QualityPreset)
    (played : bool) (st : state) :
  isWebcamActive st = true ->
  let '(st1, item, timer) := changeQuality newQuality st in
  let st2 := startWebcam_of st true Granted played st1 in
  timer = true
  /\ quality st2 = newQuality
  /\ item = ("camera-quality", quality_name newQuality)
  /\ (exists s, streamRef st2 = Some s /\ ideal s = QUALITY_PRESETS (quality st)
                /\ In s (live st2))
  /\ isWebcamActive st2 = false.
Proof.
  intros Ha. unfold changeQuality. rewrite Ha.
  unfold startWebcam_of, videoRef. rewrite Ha. cbn.
  repeat split.
  eexists. split; [reflexivity |]. split; [reflexivity |].
  apply in_or_app. right. left. reflexivity.
Qed.

Lemma changeQuality_restarts_with_old_preset_witness :
  ideal <$> streamRef
              (startWebcam_of Sample.streaming true Granted true
                 (fst (fst (changeQuality high Sample.streaming))))
  = Some (1280, 720)%nat.
Proof.
  generalize (changeQuality_restarts_with_old_preset high true Sample.streaming eq_refl).
  vm_compute. intros (_ & _ & _ & (s & Hs & Hi & _) & _).
  reflexivity.
Defined.

(** X18.  With the camera off, toggling only flips the facing mode and
    stores its name, with no restart; toggling twice gives back the state
    one started from. *)
Theorem toggleCamera_idle_flips (st : state) :
  isWebcamActive st = false ->
  let '(st1, item, timer) := toggleCamera st in
  timer = false
  /\ facingMode st1 <> facingMode st
  /\ item = ("camera-facing", facing_name (facingMode st1))
  /\ live st1 = live st /\ streamRef st1 = streamRef st
  /\ fst (fst (toggleCamera st1)) = st.
Proof.
  intros Ha. unfold toggleCamera. rewrite Ha. cbn. rewrite Ha.
  repeat split.
  - destruct (facingMode st); discriminate.
  - destruct st as [p a ci si fm q sr so ts lv ho]. cbn in *. subst a.
    destruct fm; reflexivity.
Qed.

Lemma toggleCamera_idle_flips_witness :
  fst (fst (toggleCamera (fst (fst (toggleCamera initial))))) = initial.
Proof.
  generalize (toggleCamera_idle_flips initial eq_refl).
  vm_compute. intros (_ & _ & _ & _ & _ & H). exact H.
Defined.

End UploaderMore.

(** ** The page, beyond the claims *)

Section PageMore.
Import Canvas Index.

Lemma startWebcam_keeps_gallery supported o played (u : ImageUploader.state) :
  ImageUploader.capturedImages (ImageUploader.startWebcam supported o played u)
  = ImageUploader.capturedImages u
  /\ ImageUploader.selectedImageId (ImageUploader.startWebcam supported o played u)
     = ImageUploader.selectedImageId u.
Proof.
  unfold ImageUploader.startWebcam.
  destruct (negb supported); [split; reflexivity |].
  destruct (ImageUploader.isWebcamActive u); destruct o; cbn;
    try (split; reflexivity);
    match goal with |- context [if ?b then _ else _] => destruct b end;
    split; reflexivity.
Qed.

Lemma startWebcam_stays_down supported o played (u : ImageUploader.state) :
  ImageUploader.isWebcamActive u = false ->
  ImageUploader.isWebcamActive (ImageUploader.startWebcam supported o played u) = false.
Proof.
  intros Ha. destruct supported; [apply startWebcam_never_shows |].
  cbn. exact Ha.
Qed.

Lemma step_keeps_camera_off (ev : Page.event) (pg : Page.state) :
  ImageUploader.isWebcamActive (Page.uploader pg) = false
  /\ ImageUploader.capturedImages (Page.uploader pg) = [] ->
  ImageUploader.isWebcamActive (Page.uploader (Page.step ev pg)) = false
  /\ ImageUploader.capturedImages (Page.uploader (Page.step ev pg)) = [].
Proof.
  intros [Ha Hg].
  assert (Hed : forall f, Page.uploader (Page.in_editor f pg) = Page.uploader pg).
  { intros f. unfold Page.in_editor. destruct (Page.editor pg) as [e |]; [| reflexivity].
    destruct (f e) as [e' out]. reflexivity. }
  destruct ev; cbn [Page.step].
  - destruct (_ && _); [| auto].
    destruct (ImageUploader.useDropzone_accepts files) as [| [f url] rest]; cbn; auto.
  - rewrite Hg. cbn. auto.
  - rewrite Hg. cbn. auto.
  - destruct (Page.webcam_button pg); [| auto]. cbn.
    split; [apply startWebcam_stays_down, Ha |].
    rewrite (proj1 (startWebcam_keeps_gallery _ _ _ _)). exact Hg.
  - rewrite Ha. auto.
  - rewrite Ha. auto.
  - rewrite Hed. auto.
  - rewrite Hed. auto.
  - rewrite Hed. auto.
  - destruct (_ || _); auto.
  - destruct (cartoonify_enabled _); auto.
  - auto.
  - auto.
Qed.

(** X19.  Starting from the initial page, no sequence of events brings up
    the camera view: [isWebcamActive] stays false, and so no photo is ever
    captured, the gallery stays empty. *)
Theorem camera_view_never_shown (evs : list Page.event) :
  ImageUploader.isWebcamActive (Page.uploader (Page.run evs Page.initial)) = false
  /\ ImageUploader.capturedImages (Page.uploader (Page.run evs Page.initial)) = [].
Proof.
  unfold Page.run.
  induction evs as [| ev evs IH] using rev_ind; [split; reflexivity |].
  rewrite foldl_app. cbn [foldl]. apply step_keeps_camera_off, IH.
Qed.

Lemma onImageSelect_consistent (f : File) (pg : Page.state) :
  Page.consistent (Page.onImageSelect f pg).
Proof.
  unfold Page.consistent, Page.onImageSelect. cbn.
  destruct (Page.editor pg); cbn; split; reflexivity || discriminate.
Qed.

Lemma in_index_consistent (h : state -> state) (pg : Page.state) :
  (forall st, selectedFile (h st) = selectedFile st
              /\ adjustedFile (h st) = adjustedFile st) ->
  Page.consistent pg -> Page.consistent (Page.in_index h pg).
Proof.
  intros Hh. unfold Page.consistent, Page.in_index. cbn.
  destruct (Hh (Page.index pg)) as [-> ->]. auto.
Qed.

Lemma image_loaded_keeps_file (e : ImageEditor.state) :
  ImageEditor.imageFile (fst (ImageEditor.image_loaded e)) = ImageEditor.imageFile e.
Proof.
  unfold ImageEditor.image_loaded.
  destruct (ImageEditor.decoding e) as [| [f adj] rest]; [reflexivity |].
  rewrite (proj2 (proj2 (render_effect_keeps _))).
  rewrite (proj1 (proj2 (proj2 (applyFilters_keeps _ _ _)))). reflexivity.
Qed.

Lemma change_keeps_file g (e : ImageEditor.state) :
  ImageEditor.imageFile (fst (ImageEditor.change g e)) = ImageEditor.imageFile e.
Proof.
  unfold ImageEditor.change. rewrite (proj2 (proj2 (render_effect_keeps _))). reflexivity.
Qed.

Lemma in_editor_consistent g (pg : Page.state) :
  (forall e, ImageEditor.imageFile (fst (g e)) = ImageEditor.imageFile e) ->
  Page.consistent pg -> Page.consistent (Page.in_editor g pg).
Proof.
  intros Hg. unfold Page.consistent, Page.in_editor.
  destruct (Page.editor pg) as [e |] eqn:He; [| rewrite He; auto].
  specialize (Hg e). destruct (g e) as [e' out]. cbn in *.
  destruct (selectedFile (Page.index pg)) as [f |] eqn:Hs; [| contradiction].
  intros [Hf Ha].
  destruct out as [o |]; cbn; rewrite Hs; split; congruence.
Qed.

Lemma step_consistent (ev : Page.event) (pg : Page.state) :
  Page.consistent pg -> Page.consistent (Page.step ev pg).
Proof.
  intros H. destruct ev; cbn [Page.step].
  - destruct (_ && _); [| exact H].
    destruct (ImageUploader.onDrop _ _) as [u [f |]];
      [apply onImageSelect_consistent | exact H].
  - destruct (_ !! n); [| exact H]. destruct (_ || _); [| exact H].
    destruct (ImageUploader.selectImage _ _) as [u f]. apply onImageSelect_consistent.
  - destruct (_ !! n); [| exact H]. destruct (_ || _); exact H.
  - destruct (Page.webcam_button pg); exact H.
  - destruct (ImageUploader.isWebcamActive _); exact H.
  - destruct (ImageUploader.isWebcamActive _); exact H.
  - apply in_editor_consistent; [apply image_loaded_keeps_file | exact H].
  - apply in_editor_consistent; [apply change_keeps_file | exact H].
  - apply in_editor_consistent; [apply change_keeps_file | exact H].
  - destruct (_ || _); [exact H |].
    apply in_index_consistent; [split; reflexivity | exact H].
  - destruct (cartoonify_enabled _); [| exact H].
    apply in_index_consistent; [| exact H].
    intros st. unfold handleCartoonify.
    destruct (adjustedFile st) eqn:E; split; cbn; congruence.
  - apply in_index_consistent; [| exact H].
    intros st. unfold reader_loaded. destruct (reading st); split; reflexivity.
  - apply in_index_consistent; [| exact H].
    intros st. unfold answered. destruct (in_flight st !! n); [| split; reflexivity].
    destruct r as [msg | [url |]]; try (split; reflexivity).
    destruct (String.eqb url ""); split; reflexivity.
Qed.

(** X20.  In every state the page can reach, the editor is rendered
    exactly when a file is selected and shows that file, and a file to
    submit exists exactly then; in particular, whenever the cartoonify
    button can be pressed, pressing it starts exactly one read, of the
    adjusted file, under the style selected at that moment. *)
Theorem reachable_page_consistent (evs : list Page.event) :
  let pg := Page.run evs Page.initial in
  (selectedFile (Page.index pg) = None <-> Page.editor pg = None)
  /\ (selectedFile (Page.index pg) = None <-> adjustedFile (Page.index pg) = None)
  /\ (forall e, Page.editor pg = Some e ->
        selectedFile (Page.index pg) = Some (ImageEditor.imageFile e))
  /\ (cartoonify_enabled (Page.index pg) = true ->
      exists f,
        adjustedFile (Page.index pg) = Some f
        /\ reading (Page.index (Page.step Page.ClickCartoonify pg))
           = (reading (Page.index pg)
              ++ [{| image := f; style := selectedStyle (Page.index pg) |}])%list).
Proof.
  intros pg.
  assert (H : Page.consistent pg).
  { subst pg. unfold Page.run.
    induction evs as [| ev evs IH] using rev_ind; [reflexivity |].
    rewrite foldl_app. cbn [foldl]. apply step_consistent, IH. }
  unfold Page.consistent in H.
  destruct (selectedFile (Page.index pg)) as [f |] eqn:Hs;
    destruct (Page.editor pg) as [e |] eqn:He; try contradiction.
  - destruct H as [Hf Ha].
    split; [split; discriminate |]. split; [split; [discriminate | contradiction] |].
    split; [intros e' [= <-]; congruence |].
    intros Hen. destruct (adjustedFile (Page.index pg)) as [g |] eqn:Hg;
      [| contradiction].
    exists g. split; [reflexivity |].
    cbn [Page.step]. rewrite Hen. cbn. unfold handleCartoonify. rewrite Hg. reflexivity.
  - split; [split; reflexivity |]. split; [split; [intros _; exact H | reflexivity] |].
    split; [intros e' [=] |].
    intros Hen. unfold cartoonify_enabled in Hen. rewrite Hs in Hen.
    rewrite bool_decide_eq_false_2 in Hen by auto. discriminate.
Qed.

Lemma reachable_page_consistent_witness :
  exists f,
    adjustedFile
      (Page.index (Page.run [Page.Drop [(Sample.photo1, Sample.data_url)]] Page.initial))
    = Some f.
Proof.
  destruct (proj2 (proj2 (proj2
              (reachable_page_consistent [Page.Drop [(Sample.photo1, Sample.data_url)]])))
              eq_refl) as (f & Hf & _).
  exists f. exact Hf.
Defined.

(** X21.  An answer that reports an error changes nothing of what the
    page shows: selected and adjusted file, result, style, flag and the
    loading toast are as before.  If the answer belongs to an outstanding
    call, that call is closed and the error is thrown where nothing
    catches it; otherwise nothing happens at all. *)
Theorem error_answer_keeps_page (n : nat) (msg : string) (st : state) :
  let st' := answered n (InvokeError msg) st in
  selectedFile st' = selectedFile st /\ adjustedFile st' = adjustedFile st
  /\ cartoonImage st' = cartoonImage st /\ selectedStyle st' = selectedStyle st
  /\ isProcessing st' = isProcessing st
  /\ cartoonify_toast st' = cartoonify_toast st
  /\ (forall inv, in_flight st !! n = Some inv ->
        uncaught st' = (uncaught st ++ [msg])%list
        /\ S (length (in_flight st')) = length (in_flight st))
  /\ (in_flight st !! n = None -> st' = st).
Proof.
  unfold answered. destruct (in_flight st !! n) as [inv0 |] eqn:Hn.
  - cbn. repeat split; try discriminate.
    rewrite length_delete by (eexists; exact Hn).
    apply lookup_lt_Some in Hn. lia.
  - repeat split; easy.
Qed.

Lemma error_answer_keeps_page_witness :
  let st := Page.index (Page.run [ Page.Drop [(Sample.photo1, Sample.data_url)];
                                   Page.ClickCartoonify; Page.ReaderLoaded ]
                          Page.initial) in
  uncaught (answered 0 (InvokeError "Payment required") st) = ["Payment required"]
  /\ in_flight (answered 0 (InvokeError "Payment required") st) = [].
Proof.
  cbv zeta.
  set (st := Page.index _).
  destruct (error_answer_keeps_page 0 "Payment required" st)
    as (_ & _ & _ & _ & _ & _ & H & _).
  destruct (H {| image := Sample.photo1; style := vibrant |} eq_refl) as [Hu Hl].
  split; [exact Hu |].
  destruct (in_flight (answered 0 (InvokeError "Payment required") st)); [reflexivity |].
  discriminate Hl.
Defined.

(** X22.  An answer is shown whatever has been selected in the meantime:
    if the style is changed after the request has been sent, the answer to
    that request, which carries the style of the click, is put on display
    under the new style. *)
Theorem late_answer_shown_under_new_style (pg : Page.state) (f : File)
    (s' : CartoonStyle) (url : string) :
  cartoonify_enabled (Page.index pg) = true ->
  adjustedFile (Page.index pg) = Some f ->
  reading (Page.index pg) = [] ->
  url <> "" ->
  let sent := Page.run [ Page.ClickCartoonify; Page.ReaderLoaded; Page.ChangeStyle s' ] pg in
  let n := length (in_flight (Page.index pg)) in
  let shown := Page.step (Page.Answered n (InvokeData (Some url))) sent in
  in_flight (Page.index sent) !! n
  = Some {| image := f; style := selectedStyle (Page.index pg) |}
  /\ selectedStyle (Page.index sent) = s'
  /\ cartoonImage (Page.index shown) = Some url
  /\ selectedStyle (Page.index shown) = s'.
Proof.
  intros Hen Hf Hr Hurl sent n shown.
  assert (Hsel : selectedFile (Page.index pg) <> None).
  { unfold cartoonify_enabled in Hen.
    apply andb_true_iff in Hen as [Hen _]. apply andb_true_iff in Hen as [Hen _].
    apply bool_decide_eq_true in Hen. exact Hen. }
  assert (Hsent : Page.index sent
                  = handleStyleChange s'
                      (reader_loaded (handleCartoonify (Page.index pg)))).
  { subst sent. unfold Page.run. cbn [foldl Page.step]. rewrite Hen.
    cbn [Page.in_index Page.index].
    assert (Hp : isProcessing (reader_loaded (handleCartoonify (Page.index pg))) = false).
    { unfold handleCartoonify. rewrite Hf. unfold reader_loaded. cbn. rewrite Hr. reflexivity. }
    assert (Hs : selectedFile (reader_loaded (handleCartoonify (Page.index pg)))
                 = selectedFile (Page.index pg)).
    { unfold handleCartoonify. rewrite Hf. unfold reader_loaded. cbn. rewrite Hr. reflexivity. }
    rewrite Hp, Hs. rewrite bool_decide_eq_false_2 by exact Hsel. reflexivity. }
  assert (Hfl : in_flight (Page.index sent)
                = (in_flight (Page.index pg)
                   ++ [{| image := f; style := selectedStyle (Page.index pg) |}])%list).
  { rewrite Hsent. unfold handleCartoonify. rewrite Hf. unfold reader_loaded. cbn.
    rewrite Hr. reflexivity. }
  assert (Hn : in_flight (Page.index sent) !! n
               = Some {| image := f; style := selectedStyle (Page.index pg) |}).
  { rewrite Hfl. subst n. rewrite lookup_app_r by lia.
    rewrite Nat.sub_diag. reflexivity. }
  clearbody sent.
  split; [exact Hn |]. split; [rewrite Hsent; reflexivity |].
  subst shown. cbn [Page.step Page.in_index Page.index]. unfold answered. rewrite Hn.
  apply String.eqb_neq in Hurl. rewrite Hurl. cbn.
  split; [reflexivity |]. rewrite Hsent. reflexivity.
Qed.

Lemma late_answer_shown_under_new_style_witness :
  let pg := Page.run [Page.Drop [(Sample.photo1, Sample.data_url)]] Page.initial in
  let shown := Page.run [ Page.ClickCartoonify; Page.ReaderLoaded; Page.ChangeStyle anime;
                          Page.Answered 0 (InvokeData (Some "data:image/png;base64,BBBB")) ]
                 pg in
  cartoonImage (Page.index shown) = Some "data:image/png;base64,BBBB"
  /\ selectedStyle (Page.index shown) = anime.
Proof.
  cbv zeta.
  destruct (late_answer_shown_under_new_style
              (Page.run [Page.Drop [(Sample.photo1, Sample.data_url)]] Page.initial)
              Sample.photo1 anime "data:image/png;base64,BBBB"
              eq_refl eq_refl eq_refl ltac:(discriminate))
    as (_ & _ & Hc & Hs).
  split; [exact Hc | exact Hs].
Defined.

(** X23.  Whatever the editor does (an image loads, a slider moves, the
    reset button is pressed), the result on display, the selected file and
    style, and the outstanding work stay as they are; so once a result is
    shown, adjusting the image neither removes it nor brings the
    cartoonify button back. *)
Theorem editor_keeps_result g (pg : Page.state) :
  let st' := Page.index (Page.in_editor g pg) in
  cartoonImage st' = cartoonImage (Page.index pg)
  /\ selectedFile st' = selectedFile (Page.index pg)
  /\ selectedStyle st' = selectedStyle (Page.index pg)
  /\ in_flight st' = in_flight (Page.index pg)
  /\ reading st' = reading (Page.index pg)
  /\ cartoonify_enabled st' = cartoonify_enabled (Page.index pg)
  /\ (cartoonImage (Page.index pg) <> None -> cartoonify_enabled st' = false).
Proof.
  assert (H : forall st out, cartoonImage (Page.onImageAdjusted out st) = cartoonImage st
              /\ selectedFile (Page.onImageAdjusted out st) = selectedFile st
              /\ selectedStyle (Page.onImageAdjusted out st) = selectedStyle st
              /\ in_flight (Page.onImageAdjusted out st) = in_flight st
              /\ reading (Page.onImageAdjusted out st) = reading st
              /\ cartoonify_enabled (Page.onImageAdjusted out st) = cartoonify_enabled st).
  { intros st [f |]; repeat split. }
  assert (Hhidden : forall st, cartoonImage st <> None -> cartoonify_enabled st = false).
  { intros st Hc. unfold cartoonify_enabled.
    rewrite (bool_decide_eq_false_2 (cartoonImage st = None)) by exact Hc.
    rewrite andb_false_r. reflexivity. }
  unfold Page.in_editor. destruct (Page.editor pg) as [e |].
  - destruct (g e) as [e' out]. cbn [Page.index].
    destruct (H (Page.index pg) out) as (H1 & H2 & H3 & H4 & H5 & H6).
    repeat split; try assumption.
    intros Hc. rewrite H6. apply Hhidden, Hc.
  - repeat split. apply Hhidden.
Qed.

Lemma editor_keeps_result_witness :
  let shown :=
    Page.run [ Page.Drop [(Sample.photo1, Sample.data_url)]; Page.ImageLoaded;
               Page.ClickCartoonify; Page.ReaderLoaded;
               Page.Answered 0 (InvokeData (Some "data:image/png;base64,BBBB")) ]
      Page.initial in
  cartoonify_enabled
    (Page.index (Page.step (Page.Adjust (ImageEditor.set_brightness 150)) shown)) = false.
Proof.
  cbv zeta.
  apply (proj2 (proj2 (proj2 (proj2 (proj2 (proj2
           (editor_keeps_result (ImageEditor.change (ImageEditor.set_brightness 150)) _))))))).
  discriminate.
Defined.

(** X24.  While the drop zone is on display and nothing is being
    processed: a drop of one file that the drop zone takes (an image type,
    or a name ending in .png, .jpg, .jpeg or .webp) selects it (the file
    becomes the selected and the adjusted file, its data URL the preview,
    the editor shows it, and no result is on display); a drop in which
    several files would pass changes nothing, since they are all
    rejected; a drop of one file that does not pass changes nothing.
    While the drop zone is not on display, or the page is processing, no
    drop changes anything. *)
Theorem drop_selects_single_file (pg : Page.state) :
  (Page.dropzone_view (Page.uploader pg) = true ->
   isProcessing (Page.index pg) = false ->
   (forall f url, ImageUploader.acceptable f = true ->
      let pg' := Page.step (Page.Drop [(f, url)]) pg in
      selectedFile (Page.index pg') = Some f
      /\ adjustedFile (Page.index pg') = Some f
      /\ cartoonImage (Page.index pg') = None
      /\ ImageUploader.preview (Page.uploader pg') = Some url
      /\ (exists e, Page.editor pg' = Some e /\ ImageEditor.imageFile e = f))
   /\ (forall files,
         (1 < length (List.filter (fun d => ImageUploader.acceptable (fst d)) files))%nat ->
         Page.step (Page.Drop files) pg = pg)
   /\ (forall f url, ImageUploader.acceptable f = false ->
         Page.step (Page.Drop [(f, url)]) pg = pg))
  /\ (Page.dropzone_view (Page.uploader pg) = false
      \/ isProcessing (Page.index pg) = true ->
      forall files, Page.step (Page.Drop files) pg = pg).
Proof.
  cbn [Page.step]. split.
  - intros Hv Hp. rewrite Hv, Hp. cbn [negb andb].
    split; [| split].
    + intros f url Hf. unfold ImageUploader.useDropzone_accepts.
      cbn [List.filter fst]. rewrite Hf. cbn.
      repeat split.
      destruct (Page.editor pg); eexists; split; reflexivity.
    + intros files Hn. unfold ImageUploader.useDropzone_accepts.
      apply Nat.ltb_lt in Hn. rewrite Hn. destruct pg; reflexivity.
    + intros f url Hf. unfold ImageUploader.useDropzone_accepts.
      cbn [List.filter fst]. rewrite Hf. destruct pg; reflexivity.
  - intros [Hv | Hp] files.
    + rewrite Hv. reflexivity.
    + rewrite Hp, andb_false_r. reflexivity.
Qed.

(** For X24: one photo dropped on the fresh page is selected; two photos
    dropped together are both turned away. *)
Lemma drop_selects_single_file_witness :
  selectedFile
    (Page.index (Page.step (Page.Drop [(Sample.photo2, Sample.data_url)]) Page.initial))
  = Some Sample.photo2
  /\ Page.step (Page.Drop [ (Sample.photo2, Sample.data_url);
                            (Sample.photo1, Sample.data_url) ]) Page.initial
     = Page.initial.
Proof.
  destruct (proj1 (drop_selects_single_file Page.initial) eq_refl eq_refl)
    as (Hone & Hmany & _).
  split.
  - apply (Hone Sample.photo2 Sample.data_url). reflexivity.
  - apply Hmany. vm_compute. lia.
Defined.

(** X25.  Picking an entry of the gallery, in the camera view or in the
    gallery view, makes its file the one to submit: the file becomes the
    selected and the adjusted file, the entry's preview and id become the
    uploader's preview and selection, the editor shows the file, no
    result is on display, and the gallery itself is unchanged. *)
Theorem pick_captured_selects (pg : Page.state) (n : nat)
    (e : ImageUploader.CapturedImage) :
  ImageUploader.capturedImages (Page.uploader pg) !! n = Some e ->
  ImageUploader.isWebcamActive (Page.uploader pg) = true
  \/ Page.gallery_view (Page.uploader pg) = true ->
  let pg' := Page.step (Page.PickCaptured n) pg in
  Page.active_artifact pg' = Some (ImageUploader.file e)
  /\ selectedFile (Page.index pg') = Some (ImageUploader.file e)
  /\ cartoonImage (Page.index pg') = None
  /\ ImageUploader.selectedImageId (Page.uploader pg') = Some (ImageUploader.id e)
  /\ ImageUploader.preview (Page.uploader pg') = Some (ImageUploader.preview_of e)
  /\ ImageUploader.capturedImages (Page.uploader pg')
     = ImageUploader.capturedImages (Page.uploader pg)
  /\ (exists ed, Page.editor pg' = Some ed
                 /\ ImageEditor.imageFile ed = ImageUploader.file e).
Proof.
  intros He Hview. cbn [Page.step]. rewrite He.
  replace (ImageUploader.isWebcamActive (Page.uploader pg)
           || Page.gallery_view (Page.uploader pg))
    with true by (destruct Hview as [-> | ->]; [reflexivity | symmetry; apply orb_true_r]).
  cbn. repeat split.
  destruct (Page.editor pg); eexists; split; reflexivity.
Qed.

Lemma pick_captured_selects_witness :
  Page.active_artifact
    (Page.step (Page.PickCaptured 2)
       (Sample.in_session (Sample.three_shots 1000 1001 1002)))
  = Some (ImageUploader.file (Sample.captured_at 1002 Sample.reddish)).
Proof.
  apply (pick_captured_selects (Sample.in_session (Sample.three_shots 1000 1001 1002))
           2%nat (Sample.captured_at 1002 Sample.reddish)).
  - reflexivity.
  - left. reflexivity.
Defined.

Lemma list_ascii_of_string_append (s t : string) :
  String.list_ascii_of_string (s +:+ t)
  = (String.list_ascii_of_string s ++ String.list_ascii_of_string t)%list.
Proof.
  induction s as [| a s IH]; [reflexivity |].
  change (String a s +:+ t) with (String a (s +:+ t)).
  cbn [String.list_ascii_of_string]. rewrite IH. reflexivity.
Qed.

Lemma append_cancel_r (s1 s2 t : string) : s1 +:+ t = s2 +:+ t -> s1 = s2.
Proof.
  intros H. apply (f_equal String.list_ascii_of_string) in H.
  rewrite !list_ascii_of_string_append in H. apply app_inv_tail in H.
  apply (f_equal String.string_of_list_ascii) in H.
  rewrite !String.string_of_list_ascii_of_string in H. exact H.
Qed.

(** X26.  A download takes place exactly when a result is on display; the
    link then points at that very result, and its file name is built from
    the millisecond of the click, so that downloads made at different
    milliseconds get different names. *)
Theorem handleDownload_names (st : state) :
  (forall now, is_Some (handleDownload now st)
               <-> exists url, cartoonImage st = Some url /\ url <> "")
  /\ (forall now d, handleDownload now st = Some d ->
        cartoonImage st = Some (href d)
        /\ download_name d = "cartoon-" +:+ pretty now +:+ ".png")
  /\ (forall now1 now2 d1 d2,
        handleDownload now1 st = Some d1 -> handleDownload now2 st = Some d2 ->
        download_name d1 = download_name d2 -> now1 = now2).
Proof.
  assert (Hd : forall now d, handleDownload now st = Some d ->
                cartoonImage st = Some (href d)
                /\ download_name d = "cartoon-" +:+ pretty now +:+ ".png").
  { intros now d. unfold handleDownload.
    destruct (cartoonImage st) as [url |]; [| discriminate].
    destruct (String.eqb url ""); [discriminate |].
    intros [= <-]. split; reflexivity. }
  split; [| split; [exact Hd |]].
  - intros now. unfold handleDownload. destruct (cartoonImage st) as [url |].
    + destruct (String.eqb url "") eqn:E.
      * apply String.eqb_eq in E. split; [intros [d [=]] |].
        intros (u & [= <-] & Hu). contradiction.
      * apply String.eqb_neq in E. split; [eauto | eauto].
    + split; [intros [d [=]] | intros (u & [=] & _)].
  - intros now1 now2 d1 d2 H1 H2 Hn.
    destruct (Hd _ _ H1) as [_ E1]. destruct (Hd _ _ H2) as [_ E2].
    rewrite E1, E2 in Hn.
    apply (inj (String.append "cartoon-")) in Hn.
    apply append_cancel_r in Hn. apply (inj pretty) in Hn. exact Hn.
Qed.

Lemma handleDownload_names_witness :
  exists d,
    handleDownload 1700000000000
      (Page.index
         (Page.run [ Page.Drop [(Sample.photo1, Sample.data_url)];
                     Page.ClickCartoonify; Page.ReaderLoaded;
                     Page.Answered 0 (InvokeData (Some "data:image/png;base64,BBBB")) ]
            Page.initial)) = Some d
    /\ href d = "data:image/png;base64,BBBB"
    /\ download_name d = "cartoon-1700000000000.png".
Proof.
  set (shown := Page.index _).
  assert (Hs : cartoonImage shown = Some "data:image/png;base64,BBBB")
    by (vm_compute; reflexivity).
  clearbody shown.
  pose proof (proj2 (proj1 (handleDownload_names shown) 1700000000000%N)) as H0.
  assert (H1 : "data:image/png;base64,BBBB" <> "") by discriminate.
  destruct (H0 (ex_intro _ "data:image/png;base64,BBBB" (conj Hs H1))) as [d Hd].
  exists d. split; [exact Hd |].
  destruct (proj1 (proj2 (handleDownload_names shown)) _ _ Hd) as [Hh Hn].
  split.
  - rewrite Hs in Hh. injection Hh as Hh. symmetry. exact Hh.
  - rewrite Hn. vm_compute. reflexivity.
Defined.

End PageMore.
